(** * FreelancerBid: bid eligibility, bid sizing and the submit workflow

    A shallow embedding of the decision logic of the Freelancer.com bidder
    scripts:

    - [freelancer_agent_u.py]: [get_project_details], [get_typical_bid_amount],
      [estimate_completion_time], the biddable filter of [find_projects],
      [check_project_status], [submit_bid], [display_bid_result] and the
      bidding stage of [main]; further on, [get_job_category_name],
      [check_skill_match], [analyze_projects_with_ai] and the description
      line of [find_projects];
    - [freelancer_agent.py]: the same [get_project_details],
      [get_job_category_name] and [analyze_projects_with_ai];
    - [freelancer_tool.py]: [place_bid].

    Conventions of the embedding.

    - A Python [str] is a [string]; keywords and tokens compared by the code
      are ASCII, and [str.lower] is modelled on ASCII letters.
    - [d.get(k)] is an [option]: [None] stands for a missing key (or a stored
      [None], which [get] does not distinguish).  The slots of the budget,
      one of which is read with another as its default, keep the three cases
      apart ([field]).
    - Amounts are exact rationals ([Q]); the binary rounding error of Python
      floats is outside the model.
    - Calls to the marketplace SDK, the proposal composer and the terminal
      are answered by a [World]; what the code does to the outside (SDK calls,
      printed and logged lines, list accesses) is recorded as a list of
      [event]s by a writer monad with exceptions. *)

From Stdlib Require Import Bool List ZArith QArith Qround Lia.
From Stdlib Require Import Ascii String DecimalString.
From Stdlib Require Import Permutation.
From Stdlib Require Import Lqa.
Import ListNotations.

Local Open Scope string_scope.
Local Open Scope Z_scope.

(** ** Python truthiness and strings *)

Module Py.

(** [bool(s)] for a value that is a string or [None]. *)
Definition truthy_str (o : option string) : bool :=
  match o with
  | Some s => negb (String.eqb s "")
  | None => false
  end.

(** [bool(n)] for a value that is an integer or [None]. *)
Definition truthy_Z (o : option Z) : bool :=
  match o with
  | Some n => negb (n =? 0)
  | None => false
  end.

(** [bool(x)] for a value that is a number or [None]. *)
Definition truthy_Q (o : option Q) : bool :=
  match o with
  | Some q => negb (Qeq_bool q 0)
  | None => false
  end.

(** [s in l] for a list of strings. *)
Definition in_list (s : string) (l : list string) : bool :=
  existsb (String.eqb s) l.

(** [c.lower()] on one ASCII character. *)
Definition lower_ascii (c : ascii) : ascii :=
  let n := nat_of_ascii c in
  if (Nat.leb 65 n && Nat.leb n 90)%bool then ascii_of_nat (n + 32) else c.

(** [s.lower()]. *)
Fixpoint lower (s : string) : string :=
  match s with
  | EmptyString => EmptyString
  | String c s' => String (lower_ascii c) (lower s')
  end.


(** [str(n)] for an integer. *)
Definition str_of_Z (n : Z) : string :=
  NilZero.string_of_int (Z.to_int n).

End Py.

(** ** Data model *)

(** A dictionary slot read with an explicit default: the key is missing, or
    it stores [None], or it stores a value. *)
Inductive field (A : Type) : Type :=
| Missing : field A
| PyNone : field A
| Has : A -> field A.
Arguments Missing {A}.
Arguments PyNone {A}.
Arguments Has {A} _.

(** [d.get(k)]. *)
Definition get {A} (f : field A) : option A :=
  match f with
  | Has a => Some a
  | _ => None
  end.

(** [d.get(k, default)]. *)
Definition get_default {A} (f : field A) (default : option A) : option A :=
  match f with
  | Missing => default
  | PyNone => None
  | Has a => Some a
  end.

(** [project['budget']]. *)
Record Budget : Type := mkBudget {
  minimum : field Q;
  maximum : field Q
}.

(** [{}], what [project.get('budget', {})] gives without a budget. *)
Definition empty_budget : Budget := mkBudget Missing Missing.

(** A project record of the marketplace, with the keys the code reads.
    For [budget] and [description], which the code reads with a default,
    [None] is a missing key. *)
Record Project : Type := mkProject {
  id : option Z;
  title : option string;
  description : option string;
  budget : option Budget;
  status : option string;
  frontend_status : option string;
  sub_status : option string
}.

(** An entry of the bid history. *)
Record HistoryBid : Type := mkHistoryBid {
  amount : option Q
}.

(** [BidProposal]. *)
Record BidProposal : Type := mkBidProposal {
  project_id : Z;
  bid_amount : Q;
  period : Z;
  proposal_description : string;
  milestone_percentage : Z
}.

(** What [place_project_bid] hands back, as [display_bid_result] reads it. *)
Record BidResult : Type := mkBidResult {
  result_status : option string;
  result_id : option Z;
  result_amount : option Q;
  result_period : option Z;
  result_details : list string
}.

(** [BidderAgentDeps], without the session and the profile. *)
Record BidderAgentDeps : Type := mkBidderAgentDeps {
  project : Project;
  bid_history : option (list HistoryBid);
  typical_bid_amount : option Q
}.

(** ** Eligibility *)

Definition active_states : list string := ["active"; "open"; "published"].
Definition inactive_states : list string := ["closed"; "frozen"; "cancelled"].

(** The condition of the filter loop of [find_projects]. *)
Definition listing_biddable (p : Project) : bool :=
  ((Py.truthy_str (status p) &&
      match status p with Some s => Py.in_list s active_states | None => false end)
   || (Py.truthy_str (frontend_status p) &&
      match frontend_status p with
      | Some s => Py.in_list s active_states
      | None => false
      end)
   || (negb (Py.truthy_str (status p)) &&
       negb (Py.truthy_str (frontend_status p)) &&
       negb (Py.truthy_str (sub_status p))))%bool.

(** [biddable_projects] as the loop of [find_projects] builds it. *)
Definition biddable_projects (projects : list Project) : list Project :=
  filter listing_biddable projects.

(** The condition of [check_project_status] on a fetched project. *)
Definition status_biddable (p : Project) : bool :=
  ((Py.truthy_str (status p) &&
      match status p with Some s => Py.in_list s active_states | None => false end)
   || (Py.truthy_str (frontend_status p) &&
      match frontend_status p with
      | Some s => Py.in_list s active_states
      | None => false
      end)
   || (negb (Py.truthy_str (status p)) &&
       negb (Py.truthy_str (frontend_status p))))%bool.

(** ** Bid sizing *)

(** Nearest integer, ties to the even neighbour. *)
Definition round_half_even (x : Q) : Z :=
  let fl := Qfloor x in
  match (x - inject_Z fl ?= 1 # 2)%Q with
  | Lt => fl
  | Gt => fl + 1
  | Eq => if Z.even fl then fl else fl + 1
  end.

(** [round(x, 2)]. *)
Definition round2 (x : Q) : Q :=
  (round_half_even (x * 100) # 100)%Q.

(** [sum(l) / len(l)]. *)
Definition mean (l : list Q) : Q :=
  (fold_left Qplus l 0 / inject_Z (Z.of_nat (List.length l)))%Q.

(** [[bid.get('amount', 0) for bid in bid_history if bid.get('amount')]]. *)
Fixpoint past_bids (history : list HistoryBid) : list Q :=
  match history with
  | [] => []
  | bid :: rest =>
      if Py.truthy_Q (amount bid)
      then match amount bid with
           | Some q => q :: past_bids rest
           | None => 0%Q :: past_bids rest
           end
      else past_bids rest
  end.

(** [bool(l)] for a value that is a list or [None]. *)
Definition truthy_list {A} (o : option (list A)) : bool :=
  match o with
  | Some (_ :: _) => true
  | _ => false
  end.

Definition DEFAULT_AMOUNT : Q := 500%Q.

(** The tool [get_typical_bid_amount] of the bidder agent. *)
Definition get_typical_bid_amount (deps : BidderAgentDeps) : Q :=
  if Py.truthy_Q (typical_bid_amount deps)
  then match typical_bid_amount deps with Some q => q | None => 0%Q end
  else
    let budget := match budget (project deps) with
                  | Some b => b
                  | None => empty_budget
                  end in
    let min_budget := get (minimum budget) in
    let max_budget := get_default (maximum budget) min_budget in
    let typical_amount :=
      match min_budget, max_budget with
      | Some mn, Some mx => ((mn + mx) / 2)%Q
      | _, _ => DEFAULT_AMOUNT
      end in
    let typical_amount :=
      if truthy_list (bid_history deps)
      then
        let past := past_bids (match bid_history deps with
                               | Some h => h
                               | None => []
                               end) in
        match past with
        | _ :: _ => ((typical_amount + mean past) / 2)%Q
        | [] => typical_amount
        end
      else typical_amount in
    round2 typical_amount.




(** ** Effects: SDK calls, terminal and log *)

Inductive exn_class : Type :=
| BidNotPlacedException
| ProjectsNotFoundException
| IndexError
| OtherException.

(** A raised exception; [exn_msg] is [str(e)]. *)
Record exn : Type := mkExn {
  exn_cls : exn_class;
  exn_msg : string
}.

Inductive outcome (A : Type) : Type :=
| Returns : A -> outcome A
| Raises : exn -> outcome A.
Arguments Returns {A} _.
Arguments Raises {A} _.

(** A value interpolated into a printed line. *)
Inductive pyval : Type :=
| VNone : pyval
| VStr : string -> pyval
| VInt : Z -> pyval
| VNum : Q -> pyval.

Inductive event : Type :=
| Print (line : string)
| PrintFmt (label : string) (v : pyval)
| LogInfo (line : string)
| LogError (line : string)
| Input (prompt : string)
| ListAccess (len : nat) (index : Z)
| CallGetProjectById (pid : Z)
| CallGetSelfUserId
| CallBidderAgent (p : Project)
| CallPlaceProjectBid (pid bidder : Z) (amount : Q) (period : Z)
                      (description : string) (milestone : Z).

(** The collaborators of one run. *)
Record World : Type := mkWorld {
  get_project_by_id : Z -> outcome (option Project);
  get_self_user_id : outcome Z;
  place_project_bid : Z -> Z -> Q -> Z -> string -> Z -> outcome BidResult;
  OPENAI_API_KEY : bool;
  bidder_agent_run : Project -> outcome BidProposal;
  operator_input : string
}.

(** A computation: how it ends and what it did to the outside, in order. *)
Definition M (A : Type) : Type := (outcome A * list event)%type.

Definition ret {A} (a : A) : M A := (Returns a, []).

Definition bind {A B} (m : M A) (f : A -> M B) : M B :=
  match m with
  | (Returns a, t) => let (r, t') := f a in (r, (t ++ t')%list)
  | (Raises e, t) => (Raises e, t)
  end.

Definition emit (e : event) : M unit := (Returns tt, [e]).

Definition call {A} (e : event) (o : outcome A) : M A := (o, [e]).

(** [try: m  except Exception as e: handler e]. *)
Definition try_except {A} (m : M A) (handler : exn -> M A) : M A :=
  match m with
  | (Returns a, t) => (Returns a, t)
  | (Raises e, t) => let (r, t') := handler e in (r, (t ++ t')%list)
  end.

(** [try: m  except cls as e: handler e]. *)
Definition try_except_cls {A} (cls : exn_class -> bool) (m : M A)
                          (handler : exn -> M A) : M A :=
  match m with
  | (Returns a, t) => (Returns a, t)
  | (Raises e, t) =>
      if cls (exn_cls e)
      then let (r, t') := handler e in (r, (t ++ t')%list)
      else (Raises e, t)
  end.

Notation "x <- m ;; k" := (bind m (fun x => k))
  (at level 61, m at next level, right associativity).
Notation "m ;;; k" := (bind m (fun _ => k))
  (at level 61, right associativity).

Definition result_of {A} (m : M A) : outcome A := fst m.
Definition trace_of {A} (m : M A) : list event := snd m.

(** [l[i]], with Python's negative indices and [IndexError]. *)
Definition py_index {A} (l : list A) (i : Z) : M A :=
  let n := Z.of_nat (List.length l) in
  let j := if i <? 0 then i + n else i in
  match (if (0 <=? j) && (j <? n) then nth_error l (Z.to_nat j) else None)%bool with
  | Some a => (Returns a, [ListAccess (List.length l) i])
  | None => (Raises (mkExn IndexError "list index out of range"),
             [ListAccess (List.length l) i])
  end.

(** [input(prompt)]. *)
Definition input (w : World) (prompt : string) : M string :=
  call (Input prompt) (Returns (operator_input w)).

(** [str(x)] for a string or [None]. *)
Definition str_of_opt (o : option string) : string :=
  match o with
  | Some s => s
  | None => "None"
  end.

(** ** The agent tool [get_project_details] *)

(** The dictionary the tool returns: an error dictionary [{"error": msg}], or
    a project record (the one of the search results, or what
    [get_project_by_id] gave). *)
Inductive tool_result : Type :=
| ErrorDict (msg : string)
| ProjectDict (p : option Project).

(** ["error" in result]. *)
Definition has_error_key (r : tool_result) : bool :=
  match r with
  | ErrorDict _ => true
  | ProjectDict _ => false
  end.

(** [get_project_details], identical in [freelancer_agent_u.py] and
    [freelancer_agent.py]. *)
Definition get_project_details (w : World) (projects : list Project)
                               (project_index : Z) : M tool_result :=
  match projects with
  | [] => ret (ErrorDict "No projects available in search results")
  | _ :: _ =>
      if ((project_index <? 1) ||
          (project_index >? Z.of_nat (List.length projects)))%bool
      then ret (ErrorDict
                  ("Invalid project index. Please choose between 1 and " ++
                   Py.str_of_Z (Z.of_nat (List.length projects))))
      else
        try_except
          (project <- py_index projects (project_index - 1) ;;
           if Py.truthy_Z (id project)
           then
             let project_id := match id project with Some n => n | None => 0 end in
             detailed_project <- call (CallGetProjectById project_id)
                                      (get_project_by_id w project_id) ;;
             ret (ProjectDict detailed_project)
           else ret (ProjectDict (Some project)))
          (fun e => ret (ErrorDict
                           ("Error fetching project details: " ++ exn_msg e)))
  end.

(** ** The bidder workflow of [freelancer_agent_u.py] *)

(** [check_project_status]. *)
Definition check_project_status (w : World) (project_id : Z) : M bool :=
  try_except
    (project <- call (CallGetProjectById project_id)
                     (get_project_by_id w project_id) ;;
     match project with
     | None =>
         emit (LogInfo ("Project " ++ Py.str_of_Z project_id ++ " not found.")) ;;;
         ret false
     | Some p =>
         emit (LogInfo ("Project status: " ++ str_of_opt (status p) ++
                        ", frontend status: " ++
                        str_of_opt (frontend_status p))) ;;;
         if status_biddable p
         then ret true
         else
           emit (LogInfo ("Project " ++ Py.str_of_Z project_id ++
                          " is not in an active state for bidding.")) ;;;
           ret false
     end)
    (fun e =>
       emit (LogError ("Error checking project status: " ++ exn_msg e)) ;;;
       ret false).

(** [submit_bid]: [None] or the value of [place_project_bid]. *)
Definition submit_bid (w : World) (proposal : BidProposal)
  : M (option BidResult) :=
  try_except
    (let project_id := project_id proposal in
     is_biddable <- check_project_status w project_id ;;
     if negb is_biddable
     then
       emit (Print "This project is not available for bidding.") ;;;
       ret None
     else
       bidder_id <- call CallGetSelfUserId (get_self_user_id w) ;;
       bid_result <- call (CallPlaceProjectBid project_id bidder_id
                             (bid_amount proposal) (period proposal)
                             (proposal_description proposal)
                             (milestone_percentage proposal))
                          (place_project_bid w project_id bidder_id
                             (bid_amount proposal) (period proposal)
                             (proposal_description proposal)
                             (milestone_percentage proposal)) ;;
       ret (Some bid_result))
    (fun e =>
       emit (LogError ("Error submitting bid: " ++ exn_msg e)) ;;;
       emit (Print ("Detailed error: " ++ exn_msg e)) ;;;
       ret None).

Definition newline : string := String (ascii_of_nat 10) "".

(** ["=" * 80]. *)
Definition rule : string := String.concat "" (repeat "=" 80%nat).

(** [generate_bid_proposal]: [None] without a composer credential. *)
Definition generate_bid_proposal (w : World) (project : Project)
  : M (option BidProposal) :=
  if negb (OPENAI_API_KEY w)
  then
    emit (Print "Error: OPENAI_API_KEY environment variable not set.") ;;;
    emit (Print "Please set your OpenAI API key to use the AI bidding feature.") ;;;
    ret None
  else
    emit (Print (newline ++ "Generating bid proposal with AI...")) ;;;
    result <- call (CallBidderAgent project) (bidder_agent_run w project) ;;
    ret (Some result).

(** [display_bid_proposal] on a proposal object. *)
Definition display_bid_proposal (proposal : BidProposal) : M unit :=
  emit (Print (newline ++ rule)) ;;;
  emit (Print "BID PROPOSAL") ;;;
  emit (Print rule) ;;;
  emit (PrintFmt "Project ID:" (VInt (project_id proposal))) ;;;
  emit (PrintFmt "Bid Amount:" (VNum (bid_amount proposal))) ;;;
  emit (PrintFmt "Delivery Period:" (VInt (period proposal))) ;;;
  emit (PrintFmt "Milestone Percentage:" (VInt (milestone_percentage proposal))) ;;;
  emit (Print (newline ++ "Proposal:")) ;;;
  emit (Print (proposal_description proposal)) ;;;
  emit (Print rule).

Definition opt_int (o : option Z) : pyval :=
  match o with Some n => VInt n | None => VNone end.

Definition opt_num (o : option Q) : pyval :=
  match o with Some q => VNum q | None => VNone end.

(** [display_bid_result]. *)
Definition display_bid_result (result : option BidResult) : M unit :=
  match result with
  | None => ret tt
  | Some r =>
      emit (Print (newline ++ rule)) ;;;
      emit (Print "BID SUBMISSION RESULT") ;;;
      emit (Print rule) ;;;
      let status := match result_status r with
                    | Some s => s
                    | None => "unknown"
                    end in
      (if String.eqb status "simulated"
       then
         emit (Print "BID SIMULATION SUCCESSFUL") ;;;
         emit (PrintFmt "Bid amount:" (opt_num (result_amount r))) ;;;
         emit (PrintFmt "Simulated bid ID:" (opt_int (result_id r)))
       else if String.eqb status "success"
       then
         emit (Print "BID SUCCESSFULLY SUBMITTED!") ;;;
         emit (PrintFmt "Bid amount:" (opt_num (result_amount r))) ;;;
         emit (PrintFmt "Bid ID:" (opt_int (result_id r)))
       else
         emit (Print "BID SUBMISSION FAILED") ;;;
         emit (PrintFmt "Status:" (VStr status)) ;;;
         emit (PrintFmt "Details:"
                 (VStr (String.concat ", " (result_details r))))) ;;;
      emit (Print rule)
  end.

(** The branch by which the bidding stage of [main] is left (the Python
    function itself returns [None] on each of them). *)
Inductive stage_end : Type :=
| NotRequested
| InvalidIndex
| NoProposal
| Cancelled
| Attempted (bid_result : option BidResult).

(** The end of [main]: from [if proposal:] on. *)
Definition confirm_and_submit (w : World) (proposal : option BidProposal)
  : M stage_end :=
  match proposal with
  | None => ret NoProposal
  | Some proposal =>
      display_bid_proposal proposal ;;;
      answer <- input w (newline ++ "Submit this bid? (y/n): ") ;;
      if String.eqb (Py.lower answer) "y"
      then
        bid_result <- submit_bid w proposal ;;
        display_bid_result bid_result ;;;
        ret (Attempted bid_result)
      else ret Cancelled
  end.

(** The bidding stage of [main]: from [if args.bid:] to the end. *)
Definition bid_stage (w : World) (projects : list Project) (bid : option Z)
  : M stage_end :=
  if Py.truthy_Z bid
  then
    let bid := match bid with Some n => n | None => 0 end in
    if ((bid <? 1) || (bid >? Z.of_nat (List.length projects)))%bool
    then
      emit (Print ("Invalid project index. Please choose between 1 and " ++
                   Py.str_of_Z (Z.of_nat (List.length projects)))) ;;;
      ret InvalidIndex
    else
      project <- py_index projects (bid - 1) ;;
      proposal <- generate_bid_proposal w project ;;
      confirm_and_submit w proposal
  else ret NotRequested.

(** ** [place_bid] of [freelancer_tool.py] *)

Definition BID_AMOUNT : Q := 100%Q.
Definition BID_PERIOD : Z := 7.
Definition BID_DESCRIPTION : string := "
Hello! I'm interested in working on your project. I have extensive experience in this area and can deliver high-quality results within your specified timeframe.

With my expertise in:
- Python development
- API integration
- Data analysis

I'm confident I can exceed your expectations. If you have any questions, please let me know.

Looking forward to your response!
".

Definition is_BidNotPlacedException (c : exn_class) : bool :=
  match c with
  | BidNotPlacedException => true
  | _ => false
  end.

(** [place_bid]: [None] or the bid object of [place_project_bid]. *)
Definition place_bid (w : World) (project_id : Z) : M (option BidResult) :=
  emit (Print ("Preparing to place bid on project " ++
               Py.str_of_Z project_id ++ "...")) ;;;
  emit (Print "WARNING: THIS WILL PLACE A REAL BID ON A REAL PROJECT.") ;;;
  emit (PrintFmt "Bid amount:" (VNum BID_AMOUNT)) ;;;
  emit (PrintFmt "Delivery period:" (VInt BID_PERIOD)) ;;;
  emit (PrintFmt "Description:" (VStr BID_DESCRIPTION)) ;;;
  confirm <- input w (newline ++
                      "Type 'CONFIRM' to proceed or anything else to cancel: ") ;;
  if negb (String.eqb confirm "CONFIRM")
  then
    emit (Print "Bid cancelled.") ;;;
    ret None
  else
    emit (Print ("Placing bid on project " ++
                 Py.str_of_Z project_id ++ "...")) ;;;
    try_except_cls is_BidNotPlacedException
      (user_id <- call CallGetSelfUserId (get_self_user_id w) ;;
       bid <- call (CallPlaceProjectBid project_id user_id BID_AMOUNT
                      BID_PERIOD BID_DESCRIPTION 100)
                   (place_project_bid w project_id user_id BID_AMOUNT
                      BID_PERIOD BID_DESCRIPTION 100) ;;
       emit (Print "Bid placed successfully!") ;;;
       emit (PrintFmt "Bid ID:" (opt_int (result_id bid))) ;;;
       emit (PrintFmt "Amount:" (opt_num (result_amount bid))) ;;;
       emit (PrintFmt "Period:" (opt_int (result_period bid))) ;;;
       ret (Some bid))
      (fun e =>
         emit (Print ("Error placing bid: " ++ exn_msg e)) ;;;
         ret None).

(** ** Observations on a trace *)

Definition is_place_bid (e : event) : bool :=
  match e with
  | CallPlaceProjectBid _ _ _ _ _ _ => true
  | _ => false
  end.

(** How many times [place_project_bid] was called. *)
Definition submit_calls (t : list event) : nat :=
  List.length (filter is_place_bid t).

Definition is_list_access (e : event) : bool :=
  match e with
  | ListAccess _ _ => true
  | _ => false
  end.

(** A list access whose index Python rejects with [IndexError]. *)
Definition out_of_range (e : event) : bool :=
  match e with
  | ListAccess len i =>
      negb ((- Z.of_nat len <=? i) && (i <? Z.of_nat len))%bool
  | _ => false
  end.

(** The lines the run printed, in order. *)
Fixpoint printed (t : list event) : list string :=
  match t with
  | [] => []
  | Print s :: t' => s :: printed t'
  | _ :: t' => printed t'
  end.

(** The lines the run logged as errors, in order. *)
Fixpoint logged_errors (t : list event) : list string :=
  match t with
  | [] => []
  | LogError s :: t' => s :: logged_errors t'
  | _ :: t' => logged_errors t'
  end.

(** ** Notions the statements below use *)




(** The result is one [display_bid_result] reports as a failure. *)
Definition is_failed (r : BidResult) : bool :=
  match result_status r with
  | Some s => negb (String.eqb s "simulated" || String.eqb s "success")
  | None => true
  end.

(** A returned value that is a failed bid result carrying [reason]. *)
Definition Failed_with (reason : string) (res : option BidResult) : Prop :=
  exists r, res = Some r /\ is_failed r = true /\ In reason (result_details r).

(** [bid_history or []]. *)
Definition history_entries (deps : BidderAgentDeps) : list HistoryBid :=
  match bid_history deps with
  | Some h => h
  | None => []
  end.

(** The amounts of the history entries that have one. *)
Definition amounts_present (history : list HistoryBid) : list Q :=
  flat_map (fun bid => match amount bid with
                       | Some q => [q]
                       | None => []
                       end) history.

(** The amounts of the history entries that have one other than zero. *)
Definition nonzero_amounts (history : list HistoryBid) : list Q :=
  flat_map (fun bid => match amount bid with
                       | Some q => if Qeq_bool q 0 then [] else [q]
                       | None => []
                       end) history.

(** The base blended with the mean of past amounts, when there are any. *)
Definition blend (base : Q) (past : list Q) : Q :=
  match past with
  | [] => base
  | _ :: _ => ((base + mean past) / 2)%Q
  end.

(** The sizing rule in the words of the specification: the midpoint of the
    budget when it has both a minimum and a maximum, 500 otherwise; blended
    with the mean of the amounts of the history entries that have one;
    rounded to two decimals. *)
Definition amount_as_specified (deps : BidderAgentDeps) : Q :=
  let budget := match budget (project deps) with
                | Some b => b
                | None => empty_budget
                end in
  let base := match get (minimum budget), get (maximum budget) with
              | Some mn, Some mx => ((mn + mx) / 2)%Q
              | _, _ => DEFAULT_AMOUNT
              end in
  round2 (blend base (amounts_present (history_entries deps))).

(** The base amount the code derives from the budget of a project. *)
Inductive budget_base (p : Project) : Q -> Prop :=
| base_midpoint b mn mx :
    budget p = Some b -> minimum b = Has mn -> maximum b = Has mx ->
    budget_base p ((mn + mx) / 2)%Q
| base_minimum_only b mn :
    budget p = Some b -> minimum b = Has mn -> maximum b = Missing ->
    budget_base p mn
| base_no_budget :
    budget p = None -> budget_base p DEFAULT_AMOUNT
| base_no_minimum b :
    budget p = Some b -> get (minimum b) = None ->
    budget_base p DEFAULT_AMOUNT
| base_null_maximum b :
    budget p = Some b -> maximum b = PyNone ->
    budget_base p DEFAULT_AMOUNT.

(** ** Sample inputs *)


(** A project record with the given status fields and nothing else of note. *)
Definition project_with (st fs sub : option string) : Project :=
  mkProject (Some 7) (Some "Audit") (Some "A small audit") None st fs sub.

Definition no_status_project : Project := project_with None None None.
Definition closed_project : Project := project_with (Some "closed") None None.
Definition sub_closed_project : Project :=
  project_with None None (Some "closed").

Definition sample_proposal : BidProposal :=
  mkBidProposal 7 150 3 "I can do this audit." 50.

Definition accepted_bid : BidResult :=
  mkBidResult (Some "success") (Some 9001) (Some 150%Q) (Some 3) [].

(** A marketplace that answers every detail fetch with [p], knows the bidder
    as user 42 and answers a bid with [bid]; the composer drafts
    [sample_proposal]; the operator types [answer]. *)
Definition world_with (p : Project) (bid : outcome BidResult)
                      (answer : string) : World :=
  mkWorld (fun _ => Returns (Some p))
          (Returns 42)
          (fun _ _ _ _ _ _ => bid)
          true
          (fun _ => Returns sample_proposal)
          answer.

Definition budget_100_200 : Project :=
  mkProject (Some 7) (Some "Audit") (Some "A small audit")
            (Some (mkBudget (Has 100%Q) (Has 200%Q))) None None None.


Definition history_120_130 : list HistoryBid :=
  [mkHistoryBid (Some 120%Q); mkHistoryBid (Some 130%Q)].

(** A marketplace that refuses the bid. *)
Definition rejecting_world : World :=
  world_with no_status_project
             (Raises (mkExn BidNotPlacedException "Bid rejected")) "y".

(** An operator who answers the prompt of [main] with a capital letter. *)
Definition capital_y_world : World :=
  world_with no_status_project (Returns accepted_bid) "Y".

(** An operator who declines. *)
Definition declining_world : World :=
  world_with no_status_project (Returns accepted_bid) "no".

(** ** More of the scripts *)

(** *** Text shown for a project *)

(** [s[:n]]. *)
Fixpoint str_take (n : nat) (s : string) : string :=
  match n, s with
  | O, _ => ""
  | S _, EmptyString => ""
  | S n', String c s' => String c (str_take n' s')
  end.

(** The description line of a listed project, as the loops of
    [find_projects] build it: descriptions of more than 100 characters are
    cut to 97 and an ellipsis. *)
Definition description_snippet (description : string) : string :=
  if (100 <? String.length description)%nat
  then str_take 97 description ++ "..."
  else description.

(** *** The tools of the analysis agent *)

(** An entry of [job_categories]; [None] is a missing key. *)
Record JobCategory : Type := mkJobCategory {
  job_id : option Z;
  job_name : option string
}.

(** [job.get('id') == job_id]. *)
Definition has_job_id (job : JobCategory) (n : Z) : bool :=
  match job_id job with
  | Some m => m =? n
  | None => false
  end.

(** [get_job_category_name]. *)
Fixpoint get_job_category_name (job_categories : list JobCategory)
                               (n : Z) : string :=
  match job_categories with
  | [] => "Unknown job category"
  | job :: rest =>
      if has_job_id job n
      then match job_name job with
           | Some name => name
           | None => "Unknown"
           end
      else get_job_category_name rest n
  end.

(** A character [str.strip] removes (ASCII white space). *)
Definition is_space (c : ascii) : bool :=
  let n := nat_of_ascii c in
  ((Nat.leb 9 n && Nat.leb n 13) || (Nat.leb 28 n && Nat.leb n 32))%bool.

(** [s.lstrip()]. *)
Fixpoint lstrip (s : string) : string :=
  match s with
  | EmptyString => EmptyString
  | String c s' => if is_space c then lstrip s' else s
  end.

(** [s.rstrip()]. *)
Fixpoint rstrip (s : string) : string :=
  match s with
  | EmptyString => EmptyString
  | String c s' =>
      let r := rstrip s' in
      if (is_space c && String.eqb r "")%bool then EmptyString else String c r
  end.


(** [s.strip()]. *)
Definition strip (s : string) : string := rstrip (lstrip s).

(** [s.lower().strip()]. *)
Definition normalize_skill (s : string) : string := strip (Py.lower s).

(** The dictionary [check_skill_match] returns. *)
Inductive skill_match : Type :=
| NoUserSkills (reason : string)
| SkillMatch (is_match : bool) (match_percentage : Q)
             (matching_skills missing_skills : list string).

(** [check_skill_match]. *)
Definition check_skill_match (user_skills project_skills : list string)
  : skill_match :=
  match user_skills with
  | [] => NoUserSkills "No user skills available"
  | _ :: _ =>
      let user_skills_norm := map normalize_skill user_skills in
      let project_skills_norm := map normalize_skill project_skills in
      let matching_skills :=
        filter (fun s => Py.in_list s user_skills_norm) project_skills_norm in
      let match_percentage :=
        match project_skills_norm with
        | _ :: _ =>
            (inject_Z (Z.of_nat (List.length matching_skills)) /
             inject_Z (Z.of_nat (List.length project_skills_norm)) * 100)%Q
        | [] => 0%Q
        end in
      SkillMatch (Qle_bool 50 match_percentage) match_percentage
                 matching_skills
                 (filter (fun s => negb (Py.in_list s user_skills_norm))
                         project_skills_norm)
  end.

(** *** Analysis of the search results *)

(** [analyze_projects_with_ai] of [freelancer_agent_u.py] and
    [freelancer_agent.py]; [agent_run] is what the run of the analysis agent
    gives (the trace has no event for that run). *)
Definition analyze_projects_with_ai {A : Type} (w : World)
    (agent_run : outcome A) (projects : list Project)
    (analyze_all : bool) (project_index : option Z) : M (option A) :=
  match projects with
  | [] => emit (Print "No projects to analyze.") ;;; ret None
  | _ :: _ =>
      if negb (OPENAI_API_KEY w)
      then
        emit (Print "Error: OPENAI_API_KEY environment variable not set.") ;;;
        emit (Print
                "Please set your OpenAI API key to use the AI analysis feature.") ;;;
        ret None
      else
        let run :=
          emit (Print (newline ++ "Analyzing projects with AI...")) ;;;
          result <- (agent_run, []) ;;
          ret (Some result) in
        if analyze_all
        then run
        else
          match project_index with
          | None =>
              emit (Print
                      ("Invalid project index. Please choose between 1 and " ++
                       Py.str_of_Z (Z.of_nat (List.length projects)) ++ ".")) ;;;
              ret None
          | Some i =>
              if ((i <? 1) || (i >? Z.of_nat (List.length projects)))%bool
              then
                emit (Print
                        ("Invalid project index. Please choose between 1 and " ++
                         Py.str_of_Z (Z.of_nat (List.length projects)) ++ ".")) ;;;
                ret None
              else
                project <- py_index projects (i - 1) ;;
                run
          end
  end.

(** *** Observations on a trace, continued *)

Definition is_bidder_agent_call (e : event) : bool :=
  match e with
  | CallBidderAgent _ => true
  | _ => false
  end.

Definition is_input (e : event) : bool :=
  match e with
  | Input _ => true
  | _ => false
  end.

Definition is_fetch (e : event) : bool :=
  match e with
  | CallGetProjectById _ => true
  | _ => false
  end.

(** Every event of the trace passes [ok]. *)
Definition all_events (ok : event -> bool) {A} (m : M A) : Prop :=
  forallb ok (trace_of m) = true.

(** *** More sample inputs *)

Definition sample_categories : list JobCategory :=
  [mkJobCategory (Some 3) (Some "PHP");
   mkJobCategory (Some 13) (Some "Python");
   mkJobCategory (Some 13) (Some "Snake charming");
   mkJobCategory (Some 20) None].

(** A run without a credential for the composer. *)
Definition keyless_world : World :=
  mkWorld (fun _ => Returns (Some no_status_project))
          (Returns 42)
          (fun _ _ _ _ _ _ => Returns accepted_bid)
          false
          (fun _ => Returns sample_proposal)
          "y".

(** A run in which the composer fails. *)
Definition failing_composer_world : World :=
  mkWorld (fun _ => Returns (Some no_status_project))
          (Returns 42)
          (fun _ _ _ _ _ _ => Returns accepted_bid)
          true
          (fun _ => Raises (mkExn OtherException "model overloaded"))
          "y".

(** A run in which the bidder cannot be identified. *)
Definition anonymous_world : World :=
  mkWorld (fun _ => Returns (Some no_status_project))
          (Raises (mkExn OtherException "401 Unauthorized"))
          (fun _ _ _ _ _ _ => Returns accepted_bid)
          true
          (fun _ => Returns sample_proposal)
          "CONFIRM".

(** A run in which the operator confirms every prompt of [main]. *)
Definition confirming_world : World :=
  world_with no_status_project (Returns accepted_bid) "y".

(** * Properties *)

(** ** Strings *)

Section StringFacts.








Lemma in_list_In (s : string) (l : list string) :
  Py.in_list s l = true <-> In s l.
Proof.
  unfold Py.in_list. rewrite existsb_exists. split.
  - intros (x & Hin & E). apply String.eqb_eq in E. now subst.
  - intros H. exists s. split; [exact H | apply String.eqb_refl].
Qed.

End StringFacts.

(** ** Completion time *)




(** ** Eligibility *)

Lemma in_active_states_not_inactive (s : string) :
  In s inactive_states -> Py.in_list s active_states = false.
Proof.
  simpl. intros [<-|[<-|[<-|[]]]]; reflexivity.
Qed.

Lemma inactive_state_truthy (s : string) :
  In s inactive_states -> Py.truthy_str (Some s) = true.
Proof.
  simpl. intros [<-|[<-|[<-|[]]]]; reflexivity.
Qed.

Lemma not_in_list (s : string) (l : list string) :
  ~ In s l -> Py.in_list s l = false.
Proof.
  intros H. destruct (Py.in_list s l) eqn:E; [|reflexivity].
  now apply in_list_In in E.
Qed.

(** C7. A project record without [status], [frontend_status] and
    [sub_status] passes the biddable filter of [find_projects]: it is kept
    in [biddable_projects]. *)
Theorem all_status_absent_biddable (projects : list Project) (p : Project) :
  In p projects ->
  status p = None -> frontend_status p = None -> sub_status p = None ->
  listing_biddable p = true /\ In p (biddable_projects projects).
Proof.
  intros Hin Hs Hf Hsub.
  assert (B : listing_biddable p = true).
  { unfold listing_biddable. now rewrite Hs, Hf, Hsub. }
  split; [exact B|].
  unfold biddable_projects. apply filter_In. now split.
Qed.

Lemma all_status_absent_biddable_witness :
  listing_biddable no_status_project = true /\
  In no_status_project (biddable_projects [closed_project; no_status_project]).
Proof.
  apply (all_status_absent_biddable [closed_project; no_status_project]
                                    no_status_project).
  - simpl; tauto.
  - reflexivity.
  - reflexivity.
  - reflexivity.
Defined.

(** C8. A project record whose [status] is "closed", "frozen" or
    "cancelled", and whose [frontend_status] is absent or outside the active
    states, does not pass the biddable filter of [find_projects], whatever
    its [sub_status]. *)
Theorem inactive_status_not_biddable (p : Project) (s : string) :
  status p = Some s -> In s inactive_states ->
  (forall f, frontend_status p = Some f -> ~ In f active_states) ->
  listing_biddable p = false /\
  forall projects, ~ In p (biddable_projects projects).
Proof.
  intros Hs Hin Hf.
  assert (B : listing_biddable p = false).
  { unfold listing_biddable. rewrite Hs.
    rewrite (inactive_state_truthy _ Hin).
    rewrite (in_active_states_not_inactive _ Hin).
    destruct (frontend_status p) as [f|] eqn:F.
    - rewrite (not_in_list f active_states (Hf f eq_refl)).
      rewrite !andb_false_r. reflexivity.
    - reflexivity. }
  split; [exact B|].
  intros projects H. unfold biddable_projects in H.
  apply filter_In in H as [_ H]. congruence.
Qed.

Lemma inactive_status_not_biddable_witness :
  listing_biddable closed_project = false /\
  forall projects, ~ In closed_project (biddable_projects projects).
Proof.
  apply (inactive_status_not_biddable closed_project "closed").
  - reflexivity.
  - simpl; tauto.
  - intros f H. discriminate H.
Defined.

(** The filter of [find_projects] does look at [sub_status]: without the
    other two fields, any non-empty [sub_status] keeps the project out. *)
Lemma listing_rejects_sub_status (p : Project) (s : string) :
  status p = None -> frontend_status p = None ->
  sub_status p = Some s -> s <> "" ->
  listing_biddable p = false.
Proof.
  intros Hs Hf Hsub Hne. unfold listing_biddable.
  rewrite Hs, Hf, Hsub. simpl.
  apply String.eqb_neq in Hne. now rewrite Hne.
Qed.

(** An empty [sub_status] counts as no [sub_status]. *)
Lemma listing_accepts_empty_sub_status :
  listing_biddable (project_with None None (Some "")) = true.
Proof. reflexivity. Qed.

(** [check_project_status] never looks at [sub_status]: without the other
    two fields its condition holds. *)
Lemma status_biddable_ignores_sub_status (p : Project) :
  status p = None -> frontend_status p = None ->
  status_biddable p = true.
Proof.
  intros Hs Hf. unfold status_biddable. now rewrite Hs, Hf.
Qed.

(** C1. On a record that has only [sub_status], set to "closed", the filter
    of [find_projects] says not biddable, but [check_project_status] returns
    [True] and [submit_bid] goes on to call [place_project_bid]. *)
Theorem recheck_accepts_closed_sub_status :
  let w := world_with sub_closed_project (Returns accepted_bid) "y" in
  status sub_closed_project = None /\
  frontend_status sub_closed_project = None /\
  sub_status sub_closed_project = Some "closed" /\
  ~ In "closed" active_states /\
  listing_biddable sub_closed_project = false /\
  result_of (check_project_status w 7) = Returns true /\
  result_of (submit_bid w sample_proposal) = Returns (Some accepted_bid) /\
  submit_calls (trace_of (submit_bid w sample_proposal)) = 1%nat.
Proof.
  repeat split; try reflexivity.
  simpl. intros [H|[H|[H|[]]]]; discriminate H.
Qed.

(** ** Bid amount *)

#[local] Instance round_half_even_compat :
  Proper (Qeq ==> eq) round_half_even.
Proof.
  intros x y E. unfold round_half_even.
  rewrite (Qfloor_comp x y E).
  assert (C : (x - inject_Z (Qfloor y) ?= 1 # 2)%Q =
              (y - inject_Z (Qfloor y) ?= 1 # 2)%Q).
  { apply Qcompare_comp; [now rewrite E | reflexivity]. }
  now rewrite C.
Qed.


Lemma past_bids_nonzero_amounts (history : list HistoryBid) :
  past_bids history = nonzero_amounts history.
Proof.
  induction history as [|bid rest IH]; simpl; [reflexivity|].
  destruct (amount bid) as [q|]; simpl.
  - destruct (Qeq_bool q 0); simpl; now rewrite IH.
  - exact IH.
Qed.


(** Without an override, the amount is the rounded blend of the base that
    [min_budget] and [max_budget] give. *)
Lemma typical_amount_unfold (deps : BidderAgentDeps) :
  Py.truthy_Q (typical_bid_amount deps) = false ->
  get_typical_bid_amount deps =
  let budget := match budget (project deps) with
                | Some b => b
                | None => empty_budget
                end in
  let min_budget := get (minimum budget) in
  let max_budget := get_default (maximum budget) min_budget in
  round2 (blend match min_budget, max_budget with
                | Some mn, Some mx => ((mn + mx) / 2)%Q
                | _, _ => DEFAULT_AMOUNT
                end
                (nonzero_amounts (history_entries deps))).
Proof.
  intros O. unfold get_typical_bid_amount. rewrite O. cbv zeta.
  unfold history_entries.
  rewrite <- past_bids_nonzero_amounts.
  destruct (bid_history deps) as [[|bid rest]|]; reflexivity.
Qed.


(** Every project has a base amount. *)
Lemma budget_base_total (p : Project) : exists base, budget_base p base.
Proof.
  destruct (budget p) as [b|] eqn:B.
  - destruct (minimum b) as [| |mn] eqn:Mn.
    + exists DEFAULT_AMOUNT. apply (base_no_minimum p b); [exact B|].
      now rewrite Mn.
    + exists DEFAULT_AMOUNT. apply (base_no_minimum p b); [exact B|].
      now rewrite Mn.
    + destruct (maximum b) as [| |mx] eqn:Mx.
      * exists mn. now apply (base_minimum_only p b).
      * exists DEFAULT_AMOUNT. now apply (base_null_maximum p b).
      * exists ((mn + mx) / 2)%Q. now apply (base_midpoint p b).
  - exists DEFAULT_AMOUNT. now apply base_no_budget.
Qed.




(** A history entry whose amount is zero is left out of the mean: the code
    keeps the base where the specified rule halves it. *)
Lemma zero_amount_entry_ignored :
  let deps := mkBidderAgentDeps budget_100_200
                                (Some [mkHistoryBid (Some 0%Q)]) None in
  get_typical_bid_amount deps == 150 /\ amount_as_specified deps == 75.
Proof.
  split; vm_compute; reflexivity.
Qed.

(** C5, as the code has it.  An override other than zero is returned as it
    is, not rounded, whatever the project and the history. *)
Theorem explicit_override_returned (deps : BidderAgentDeps) (q : Q) :
  typical_bid_amount deps = Some q -> ~ q == 0 ->
  get_typical_bid_amount deps = q.
Proof.
  intros O Hq. unfold get_typical_bid_amount. rewrite O. simpl.
  destruct (Qeq_bool q 0) eqn:E; [|reflexivity].
  now apply Qeq_bool_iff in E.
Qed.

Lemma explicit_override_returned_witness :
  get_typical_bid_amount
    (mkBidderAgentDeps budget_100_200 (Some history_120_130) (Some (1 # 3)))
  = 1 # 3.
Proof.
  apply explicit_override_returned.
  - reflexivity.
  - intros H. vm_compute in H. discriminate H.
Defined.

(** An override of zero is not returned: the amount is computed as if none
    had been supplied. *)
Lemma zero_override_not_returned :
  ~ (forall deps q,
       typical_bid_amount deps = Some q ->
       get_typical_bid_amount deps == q).
Proof.
  intros H.
  specialize (H (mkBidderAgentDeps budget_100_200 None (Some 0%Q)) 0%Q eq_refl).
  vm_compute in H. discriminate H.
Qed.

(** ** Running computations *)

Section Runs.

Context {A B : Type}.

Lemma bind_returns (m : M A) (f : A -> M B) (a : A) :
  result_of m = Returns a ->
  bind m f = (result_of (f a), (trace_of m ++ trace_of (f a))%list).
Proof.
  destruct m as [r t]. simpl. intros ->. simpl. now destruct (f a).
Qed.

Lemma bind_raises (m : M A) (f : A -> M B) (e : exn) :
  result_of m = Raises e ->
  bind m f = (Raises e, trace_of m).
Proof.
  destruct m as [r t]. simpl. now intros ->.
Qed.

Lemma submit_calls_app (t t' : list event) :
  submit_calls (t ++ t')%list = (submit_calls t + submit_calls t')%nat.
Proof.
  unfold submit_calls. now rewrite filter_app, length_app.
Qed.

Lemma printed_app (t t' : list event) :
  printed (t ++ t')%list = (printed t ++ printed t')%list.
Proof.
  induction t as [|e t IH]; simpl; [reflexivity|].
  destruct e; simpl; now rewrite ?IH.
Qed.

Lemma logged_errors_app (t t' : list event) :
  logged_errors (t ++ t')%list = (logged_errors t ++ logged_errors t')%list.
Proof.
  induction t as [|e t IH]; simpl; [reflexivity|].
  destruct e; simpl; now rewrite ?IH.
Qed.

(** A sequence in which neither part submits does not submit. *)
Lemma bind_no_submit (m : M A) (f : A -> M B) :
  submit_calls (trace_of m) = 0%nat ->
  (forall a, submit_calls (trace_of (f a)) = 0%nat) ->
  submit_calls (trace_of (bind m f)) = 0%nat.
Proof.
  intros Hm Hf. destruct (result_of m) as [a|e] eqn:R.
  - rewrite (bind_returns m f a R). simpl.
    now rewrite submit_calls_app, Hm, Hf.
  - now rewrite (bind_raises m f e R).
Qed.

End Runs.

(** ** The tool [get_project_details] *)

Lemma py_index_in_range {T} (l : list T) (i : Z) :
  0 <= i < Z.of_nat (List.length l) ->
  exists a, py_index l i = (Returns a, [ListAccess (List.length l) i]).
Proof.
  intros H. unfold py_index.
  replace (i <? 0) with false by (symmetry; apply Z.ltb_ge; lia).
  replace (0 <=? i) with true by (symmetry; apply Z.leb_le; lia).
  replace (i <? Z.of_nat (List.length l)) with true
    by (symmetry; apply Z.ltb_lt; lia).
  simpl. destruct (nth_error l (Z.to_nat i)) as [a|] eqn:E.
  - now exists a.
  - apply nth_error_None in E. lia.
Qed.

(** C10. Called with an empty list of projects, or with an index below 1 or
    above the number of projects, [get_project_details] returns an error
    dictionary at once: it raises nothing, reads no list element and calls
    nothing. *)
Theorem get_project_details_guard (w : World) (projects : list Project)
                                  (project_index : Z) :
  projects = [] \/ project_index < 1 \/
  project_index > Z.of_nat (List.length projects) ->
  exists msg,
    result_of (get_project_details w projects project_index)
      = Returns (ErrorDict msg) /\
    has_error_key (ErrorDict msg) = true /\
    filter is_list_access
      (trace_of (get_project_details w projects project_index)) = [] /\
    trace_of (get_project_details w projects project_index) = [].
Proof.
  intros H. unfold get_project_details.
  destruct projects as [|p rest].
  - exists "No projects available in search results". now repeat split.
  - destruct H as [H|H]; [discriminate|].
    set (n := Z.of_nat (List.length (p :: rest))) in *.
    assert (G : ((project_index <? 1) || (project_index >? n))%bool = true).
    { apply orb_true_iff. destruct H as [H|H].
      - left. now apply Z.ltb_lt.
      - right. apply Z.gtb_lt. lia. }
    rewrite G.
    exists ("Invalid project index. Please choose between 1 and " ++
            Py.str_of_Z n).
    now repeat split.
Qed.

Lemma get_project_details_guard_witness :
  exists msg,
    result_of (get_project_details
                 (world_with no_status_project (Returns accepted_bid) "n")
                 [no_status_project; closed_project] 3)
      = Returns (ErrorDict msg) /\
    has_error_key (ErrorDict msg) = true /\
    filter is_list_access
      (trace_of (get_project_details
                   (world_with no_status_project (Returns accepted_bid) "n")
                   [no_status_project; closed_project] 3)) = [] /\
    trace_of (get_project_details
                (world_with no_status_project (Returns accepted_bid) "n")
                [no_status_project; closed_project] 3) = [].
Proof.
  apply get_project_details_guard.
  right. right. simpl. lia.
Defined.


(** ** The re-check before submission and the submission *)

(** [check_project_status] always answers, by [True] or [False]. *)
Lemma check_project_status_total (w : World) (pid : Z) :
  exists b, result_of (check_project_status w pid) = Returns b.
Proof.
  unfold check_project_status.
  destruct (get_project_by_id w pid) as [[p|]|e]; simpl.
  - destruct (status_biddable p); simpl; now eexists.
  - now eexists.
  - now eexists.
Qed.

(** It prints nothing and submits nothing. *)
Lemma check_project_status_quiet (w : World) (pid : Z) :
  submit_calls (trace_of (check_project_status w pid)) = 0%nat /\
  printed (trace_of (check_project_status w pid)) = [].
Proof.
  unfold check_project_status.
  destruct (get_project_by_id w pid) as [[p|]|e]; simpl.
  - destruct (status_biddable p); simpl; now split.
  - now split.
  - now split.
Qed.

(** When it answers [True] it has logged no error. *)
Lemma check_project_status_true_clean (w : World) (pid : Z) :
  result_of (check_project_status w pid) = Returns true ->
  logged_errors (trace_of (check_project_status w pid)) = [].
Proof.
  unfold check_project_status.
  destruct (get_project_by_id w pid) as [[p|]|e]; simpl.
  - destruct (status_biddable p); simpl; [reflexivity | discriminate].
  - discriminate.
  - discriminate.
Qed.

(** [submit_bid] after a re-check that says no. *)
Lemma submit_bid_rejected (w : World) (proposal : BidProposal) :
  result_of (check_project_status w (project_id proposal)) = Returns false ->
  submit_bid w proposal =
  (Returns None,
   (trace_of (check_project_status w (project_id proposal)) ++
    [Print "This project is not available for bidding."])%list).
Proof.
  intros H. unfold submit_bid. cbv zeta.
  rewrite (bind_returns _ _ false H). reflexivity.
Qed.

(** [submit_bid] after a re-check that says yes. *)
Lemma submit_bid_accepted (w : World) (proposal : BidProposal) :
  result_of (check_project_status w (project_id proposal)) = Returns true ->
  submit_bid w proposal =
  try_except
    (let (r, t) :=
       bidder_id <- call CallGetSelfUserId (get_self_user_id w) ;;
       bid_result <- call (CallPlaceProjectBid (project_id proposal) bidder_id
                             (bid_amount proposal) (period proposal)
                             (proposal_description proposal)
                             (milestone_percentage proposal))
                          (place_project_bid w (project_id proposal) bidder_id
                             (bid_amount proposal) (period proposal)
                             (proposal_description proposal)
                             (milestone_percentage proposal)) ;;
       ret (Some bid_result) in
     (r, (trace_of (check_project_status w (project_id proposal)) ++ t)%list))
    (fun e =>
       emit (LogError ("Error submitting bid: " ++ exn_msg e)) ;;;
       emit (Print ("Detailed error: " ++ exn_msg e)) ;;;
       ret None).
Proof.
  intros H. unfold submit_bid. cbv zeta.
  destruct (check_project_status w (project_id proposal)) as [r t].
  simpl in H. subst r. reflexivity.
Qed.

(** Whatever the marketplace does, [submit_bid] returns, and it has called
    [place_project_bid] once at most. *)
Lemma submit_bid_total (w : World) (proposal : BidProposal) :
  (exists res, result_of (submit_bid w proposal) = Returns res) /\
  (submit_calls (trace_of (submit_bid w proposal)) <= 1)%nat.
Proof.
  destruct (check_project_status_total w (project_id proposal)) as [b Hb].
  destruct (check_project_status_quiet w (project_id proposal)) as [Hq _].
  destruct b.
  - rewrite (submit_bid_accepted w proposal Hb).
    destruct (get_self_user_id w) as [uid|e]; simpl.
    + destruct (place_project_bid w (project_id proposal) uid
                  (bid_amount proposal) (period proposal)
                  (proposal_description proposal)
                  (milestone_percentage proposal)) as [r|e]; simpl;
        (split; [now eexists|]);
        rewrite ?app_assoc, !submit_calls_app, Hq; unfold submit_calls; simpl; lia.
    + split; [now eexists|].
      rewrite ?app_assoc, !submit_calls_app, Hq; unfold submit_calls; simpl; lia.
  - rewrite (submit_bid_rejected w proposal Hb). simpl.
    split; [now eexists|].
    rewrite submit_calls_app, Hq; unfold submit_calls; simpl; lia.
Qed.

(** C2, as the code has it.  When the re-check of [submit_bid] says the
    project is not biddable, [place_project_bid] is not called, the one line
    printed is "This project is not available for bidding." and [submit_bid]
    returns [None]. *)
Theorem recheck_rejection_skips_submission (w : World)
                                           (proposal : BidProposal) :
  result_of (check_project_status w (project_id proposal)) = Returns false ->
  submit_calls (trace_of (submit_bid w proposal)) = 0%nat /\
  result_of (submit_bid w proposal) = Returns None /\
  printed (trace_of (submit_bid w proposal))
    = ["This project is not available for bidding."].
Proof.
  intros H. rewrite (submit_bid_rejected w proposal H). simpl.
  destruct (check_project_status_quiet w (project_id proposal)) as [Hq Hp].
  rewrite submit_calls_app, printed_app, Hq, Hp. now repeat split.
Qed.

Lemma recheck_rejection_skips_submission_witness :
  let w := world_with closed_project (Returns accepted_bid) "y" in
  submit_calls (trace_of (submit_bid w sample_proposal)) = 0%nat /\
  result_of (submit_bid w sample_proposal) = Returns None /\
  printed (trace_of (submit_bid w sample_proposal))
    = ["This project is not available for bidding."].
Proof.
  apply recheck_rejection_skips_submission. reflexivity.
Defined.

(** The rejection is not returned as a failed result with the reason
    "project no longer biddable": nothing is returned. *)
Lemma recheck_rejection_not_a_failed_result :
  ~ (forall w proposal,
       result_of (check_project_status w (project_id proposal))
         = Returns false ->
       submit_calls (trace_of (submit_bid w proposal)) = 0%nat /\
       exists res,
         result_of (submit_bid w proposal) = Returns res /\
         Failed_with "project no longer biddable" res).
Proof.
  intros H.
  destruct (H (world_with closed_project (Returns accepted_bid) "y")
              sample_proposal eq_refl) as (_ & res & R & F).
  vm_compute in R. injection R as <-.
  destruct F as (r & E & _). discriminate E.
Qed.

(** C9, as the code has it.  [submit_bid] always returns and never calls
    [place_project_bid] twice; when that call raises, the message of the
    error is logged and printed and [submit_bid] returns [None]. *)
Theorem submit_error_caught :
  (forall w proposal,
     (exists res, result_of (submit_bid w proposal) = Returns res) /\
     (submit_calls (trace_of (submit_bid w proposal)) <= 1)%nat) /\
  (forall w proposal uid e,
     result_of (check_project_status w (project_id proposal))
       = Returns true ->
     get_self_user_id w = Returns uid ->
     place_project_bid w (project_id proposal) uid (bid_amount proposal)
       (period proposal) (proposal_description proposal)
       (milestone_percentage proposal) = Raises e ->
     result_of (submit_bid w proposal) = Returns None /\
     submit_calls (trace_of (submit_bid w proposal)) = 1%nat /\
     logged_errors (trace_of (submit_bid w proposal))
       = ["Error submitting bid: " ++ exn_msg e] /\
     printed (trace_of (submit_bid w proposal))
       = ["Detailed error: " ++ exn_msg e]).
Proof.
  split; [exact submit_bid_total|].
  intros w proposal uid e Hc Hu Hp.
  rewrite (submit_bid_accepted w proposal Hc). rewrite Hu. simpl.
  rewrite Hp. simpl.
  destruct (check_project_status_quiet w (project_id proposal)) as [Hq Hpr].
  pose proof (check_project_status_true_clean w _ Hc) as Hl.
  rewrite <- !app_assoc.
  rewrite !submit_calls_app, !logged_errors_app, !printed_app, Hq, Hpr, Hl.
  now repeat split.
Qed.

Lemma submit_error_caught_witness :
  result_of (submit_bid rejecting_world sample_proposal) = Returns None /\
  submit_calls (trace_of (submit_bid rejecting_world sample_proposal)) = 1%nat /\
  logged_errors (trace_of (submit_bid rejecting_world sample_proposal))
    = ["Error submitting bid: Bid rejected"] /\
  printed (trace_of (submit_bid rejecting_world sample_proposal))
    = ["Detailed error: Bid rejected"].
Proof.
  apply (proj2 submit_error_caught rejecting_world sample_proposal 42
           (mkExn BidNotPlacedException "Bid rejected")); reflexivity.
Defined.

(** The error is not turned into a failed result that carries its message:
    nothing is returned. *)
Lemma submit_error_not_a_failed_result :
  ~ (forall w proposal uid e,
       result_of (check_project_status w (project_id proposal))
         = Returns true ->
       get_self_user_id w = Returns uid ->
       place_project_bid w (project_id proposal) uid (bid_amount proposal)
         (period proposal) (proposal_description proposal)
         (milestone_percentage proposal) = Raises e ->
       exists res,
         result_of (submit_bid w proposal) = Returns res /\
         Failed_with (exn_msg e) res).
Proof.
  intros H.
  destruct (H rejecting_world sample_proposal 42
              (mkExn BidNotPlacedException "Bid rejected")
              eq_refl eq_refl eq_refl) as (res & R & F).
  vm_compute in R. injection R as <-.
  destruct F as (r & E & _). discriminate E.
Qed.

(** ** Confirmation by the operator *)

Lemma py_index_no_submit {T} (l : list T) (i : Z) :
  submit_calls (trace_of (py_index l i)) = 0%nat.
Proof.
  unfold py_index.
  now destruct (if ((0 <=? (if i <? 0 then i + Z.of_nat (List.length l) else i))
                    && ((if i <? 0 then i + Z.of_nat (List.length l) else i)
                        <? Z.of_nat (List.length l)))%bool
                then nth_error l
                       (Z.to_nat (if i <? 0
                                  then i + Z.of_nat (List.length l) else i))
                else None).
Qed.

Lemma generate_bid_proposal_no_submit (w : World) (p : Project) :
  submit_calls (trace_of (generate_bid_proposal w p)) = 0%nat.
Proof.
  unfold generate_bid_proposal.
  destruct (OPENAI_API_KEY w); simpl; [|reflexivity].
  now destruct (bidder_agent_run w p).
Qed.


(** At the prompt of [main], an answer that does not lowercase to "y" ends
    the run without any call that could submit. *)
Lemma confirm_declined (w : World) (proposal : BidProposal) :
  Py.lower (operator_input w) <> "y" ->
  result_of (confirm_and_submit w (Some proposal)) = Returns Cancelled /\
  submit_calls (trace_of (confirm_and_submit w (Some proposal))) = 0%nat.
Proof.
  intros H. apply String.eqb_neq in H.
  unfold confirm_and_submit, input, call. simpl.
  rewrite H. simpl. now split.
Qed.

Lemma confirm_no_submit (w : World) (proposal : option BidProposal) :
  Py.lower (operator_input w) <> "y" ->
  submit_calls (trace_of (confirm_and_submit w proposal)) = 0%nat.
Proof.
  intros H. destruct proposal as [proposal|]; [|reflexivity].
  now apply confirm_declined.
Qed.

Lemma bid_stage_no_submit (w : World) (projects : list Project)
                          (bid : option Z) :
  Py.lower (operator_input w) <> "y" ->
  submit_calls (trace_of (bid_stage w projects bid)) = 0%nat.
Proof.
  intros H. unfold bid_stage.
  destruct (Py.truthy_Z bid); [|reflexivity].
  destruct ((_ <? 1) || (_ >? _))%bool; [reflexivity|].
  apply bind_no_submit; [apply py_index_no_submit|]. intros p.
  apply bind_no_submit; [apply generate_bid_proposal_no_submit|].
  intros proposal. now apply confirm_no_submit.
Qed.

(** In [place_bid], an answer other than "CONFIRM" cancels. *)
Lemma place_bid_cancelled (w : World) (pid : Z) :
  operator_input w <> "CONFIRM" ->
  result_of (place_bid w pid) = Returns None /\
  submit_calls (trace_of (place_bid w pid)) = 0%nat /\
  In "Bid cancelled." (printed (trace_of (place_bid w pid))).
Proof.
  intros H. apply String.eqb_neq in H.
  unfold place_bid, input, call. simpl.
  rewrite H. simpl. repeat split. tauto.
Qed.

(** C3, as the code has it.  In [main], after an answer whose lowercase form
    is not "y" nothing is submitted and the run ends as cancelled; in
    [place_bid], after an answer other than "CONFIRM" nothing is submitted,
    "Bid cancelled." is printed and [None] is returned. *)
Theorem no_submission_without_confirmation :
  (forall w proposal,
     Py.lower (operator_input w) <> "y" ->
     result_of (confirm_and_submit w (Some proposal)) = Returns Cancelled /\
     submit_calls (trace_of (confirm_and_submit w (Some proposal))) = 0%nat) /\
  (forall w projects bid,
     Py.lower (operator_input w) <> "y" ->
     submit_calls (trace_of (bid_stage w projects bid)) = 0%nat) /\
  (forall w pid,
     operator_input w <> "CONFIRM" ->
     result_of (place_bid w pid) = Returns None /\
     submit_calls (trace_of (place_bid w pid)) = 0%nat /\
     In "Bid cancelled." (printed (trace_of (place_bid w pid)))).
Proof.
  split; [exact confirm_declined|].
  split; [exact bid_stage_no_submit | exact place_bid_cancelled].
Qed.

Lemma no_submission_without_confirmation_witness :
  (result_of (confirm_and_submit declining_world (Some sample_proposal))
     = Returns Cancelled /\
   submit_calls
     (trace_of (confirm_and_submit declining_world (Some sample_proposal)))
     = 0%nat) /\
  submit_calls
    (trace_of (bid_stage declining_world [no_status_project] (Some 1)))
    = 0%nat /\
  (result_of (place_bid capital_y_world 7) = Returns None /\
   submit_calls (trace_of (place_bid capital_y_world 7)) = 0%nat /\
   In "Bid cancelled." (printed (trace_of (place_bid capital_y_world 7)))).
Proof.
  destruct no_submission_without_confirmation as (Hmain & Hstage & Htool).
  split; [|split].
  - apply Hmain. intros H. discriminate H.
  - apply Hstage. intros H. discriminate H.
  - apply Htool. intros H. discriminate H.
Defined.

(** The prompt of [main] does not require the exact token: "Y" is taken for
    a confirmation, and the bid is submitted. *)
Lemma capital_y_submits :
  ~ (forall w proposal,
       operator_input w <> "y" ->
       result_of (confirm_and_submit w (Some proposal)) = Returns Cancelled /\
       submit_calls (trace_of (confirm_and_submit w (Some proposal)))
         = 0%nat).
Proof.
  intros H.
  destruct (H capital_y_world sample_proposal) as [R _].
  - intros E. discriminate E.
  - vm_compute in R. discriminate R.
Qed.

(** * Further properties of the scripts *)

(** ** The description line *)

Lemma length_app_str (a b : string) :
  String.length (a ++ b) = (String.length a + String.length b)%nat.
Proof.
  induction a as [|c a IH]; simpl; [reflexivity | now rewrite IH].
Qed.

Lemma length_str_take (n : nat) (s : string) :
  String.length (str_take n s) = Nat.min n (String.length s).
Proof.
  revert s; induction n as [|n IH]; intros [|c s]; simpl; auto.
Qed.

Lemma str_take_app (n : nat) (a b : string) :
  (n <= String.length a)%nat -> str_take n (a ++ b) = str_take n a.
Proof.
  revert a; induction n as [|n IH]; intros [|c a] H; simpl in *;
    try reflexivity; try lia.
  rewrite IH; [reflexivity | lia].
Qed.

Lemma str_take_take (n : nat) (s : string) :
  str_take n (str_take n s) = str_take n s.
Proof.
  revert s; induction n as [|n IH]; intros [|c s]; simpl; auto.
  now rewrite IH.
Qed.

(** The description line never has more than 100 characters, shows the
    first 97 characters of the description as they are, and is the whole
    description exactly when that has at most 100 characters. *)
Theorem description_snippet_bounded (description : string) :
  String.length (description_snippet description)
    = Nat.min (String.length description) 100 /\
  str_take 97 (description_snippet description) = str_take 97 description /\
  (description_snippet description = description <->
   (String.length description <= 100)%nat).
Proof.
  unfold description_snippet.
  destruct (100 <? String.length description)%nat eqn:L.
  - apply Nat.ltb_lt in L.
    assert (Len : String.length (str_take 97 description ++ "...") = 100%nat).
    { rewrite length_app_str, length_str_take.
      change (String.length "...") with 3%nat. lia. }
    repeat split.
    + rewrite Len. lia.
    + rewrite str_take_app; [apply str_take_take|].
      rewrite length_str_take. lia.
    + intros E. rewrite <- E at 1. rewrite Len. lia.
    + lia.
  - apply Nat.ltb_ge in L. repeat split; intros; lia.
Qed.

(** ** Job categories *)

(** [get_job_category_name] answers with the first category that has the
    identifier, with "Unknown" when that category has no name, and with
    "Unknown job category" when no category has the identifier. *)
Theorem get_job_category_name_first_match :
  (forall job_categories n,
     (forall job, In job job_categories -> has_job_id job n = false) ->
     get_job_category_name job_categories n = "Unknown job category") /\
  (forall before job after n,
     (forall j, In j before -> has_job_id j n = false) ->
     has_job_id job n = true ->
     get_job_category_name (before ++ job :: after) n =
     match job_name job with
     | Some name => name
     | None => "Unknown"
     end).
Proof.
  split.
  - induction job_categories as [|job rest IH]; intros n H; simpl.
    + reflexivity.
    + rewrite (H job (or_introl eq_refl)). apply IH.
      intros j Hj. apply H. now right.
  - induction before as [|j before IH]; intros job after n H Hjob; simpl.
    + now rewrite Hjob.
    + rewrite (H j (or_introl eq_refl)). apply IH; [|exact Hjob].
      intros j' Hj'. apply H. now right.
Qed.

Lemma get_job_category_name_first_match_witness :
  get_job_category_name sample_categories 13 = "Python" /\
  get_job_category_name sample_categories 20 = "Unknown" /\
  get_job_category_name sample_categories 99 = "Unknown job category".
Proof.
  destruct get_job_category_name_first_match as [Hnone Hfirst].
  split; [|split].
  - apply (Hfirst [mkJobCategory (Some 3) (Some "PHP")]
                  (mkJobCategory (Some 13) (Some "Python"))
                  [mkJobCategory (Some 13) (Some "Snake charming");
                   mkJobCategory (Some 20) None] 13).
    + intros j [<-|[]]. reflexivity.
    + reflexivity.
  - apply (Hfirst [mkJobCategory (Some 3) (Some "PHP");
                   mkJobCategory (Some 13) (Some "Python");
                   mkJobCategory (Some 13) (Some "Snake charming")]
                  (mkJobCategory (Some 20) None) [] 20).
    + intros j [<-|[<-|[<-|[]]]]; reflexivity.
    + reflexivity.
  - apply Hnone.
    intros j [<-|[<-|[<-|[<-|[]]]]]; reflexivity.
Defined.

(** ** Skill matching *)


Lemma percentage_at_least_half (k n : nat) :
  (0 < n)%nat ->
  (50 <= inject_Z (Z.of_nat k) / inject_Z (Z.of_nat n) * 100)%Q <->
  (n <= 2 * k)%nat.
Proof.
  intros Hn. destruct n as [|n]; [lia|].
  unfold Qle, Qdiv, Qmult, Qinv, inject_Z. simpl. lia.
Qed.

Lemma percentage_bounds (k n : nat) :
  (0 < n)%nat -> (k <= n)%nat ->
  (0 <= inject_Z (Z.of_nat k) / inject_Z (Z.of_nat n) * 100)%Q /\
  (inject_Z (Z.of_nat k) / inject_Z (Z.of_nat n) * 100 <= 100)%Q.
Proof.
  intros Hn Hk. destruct n as [|n]; [lia|].
  unfold Qle, Qdiv, Qmult, Qinv, inject_Z. simpl. lia.
Qed.


(** The verdict of [check_skill_match] is a match exactly when there is at
    least one project skill and at least half of them match; the percentage
    lies between 0 and 100. *)
Theorem check_skill_match_threshold (u : string) (user_skills : list string)
                                    (project_skills : list string) :
  match check_skill_match (u :: user_skills) project_skills with
  | SkillMatch is_match pct matching missing =>
      (is_match = true <->
       project_skills <> [] /\
       (List.length project_skills <= 2 * List.length matching)%nat) /\
      (0 <= pct)%Q /\ (pct <= 100)%Q
  | NoUserSkills _ => False
  end.
Proof.
  unfold check_skill_match.
  set (users := map normalize_skill (u :: user_skills)).
  set (matching := filter (fun s => Py.in_list s users)
                          (map normalize_skill project_skills)).
  assert (Hk : (List.length matching
                <= List.length (map normalize_skill project_skills))%nat)
    by apply filter_length_le.
  destruct project_skills as [|p ps].
  - simpl. repeat split; try discriminate.
    intros [H _]. now destruct H.
  - set (projects := map normalize_skill (p :: ps)) in *.
    assert (Hn : (0 < List.length projects)%nat) by (simpl; lia).
    assert (Hlen : List.length projects = List.length (p :: ps))
      by apply length_map.
    change (map normalize_skill (p :: ps)) with projects.
    destruct projects as [|q qs] eqn:E; [simpl in Hn; lia|].
    rewrite <- E in *. split.
    + rewrite Qle_bool_iff, (percentage_at_least_half _ _ Hn), Hlen.
      split; [intros H; split; [discriminate | exact H] | now intros [_ H]].
    + apply (percentage_bounds _ _ Hn Hk).
Qed.

Section Normalization.













End Normalization.


(** ** Events of a run *)

Section Events.

Context {A B : Type}.
Variable ok : event -> bool.

Lemma all_events_ret (a : A) : all_events ok (ret a).
Proof. reflexivity. Qed.

Lemma all_events_emit (e : event) : ok e = true -> all_events ok (emit e).
Proof. unfold all_events. simpl. now intros ->. Qed.

Lemma all_events_call (e : event) (o : outcome A) :
  ok e = true -> all_events ok (call e o).
Proof. unfold all_events. simpl. now intros ->. Qed.

Lemma all_events_bind (m : M A) (f : A -> M B) :
  all_events ok m -> (forall a, all_events ok (f a)) ->
  all_events ok (bind m f).
Proof.
  unfold all_events. intros Hm Hf.
  destruct (result_of m) as [a|e] eqn:R.
  - rewrite (bind_returns m f a R). simpl.
    rewrite forallb_app, Hm. apply Hf.
  - now rewrite (bind_raises m f e R).
Qed.

Lemma all_events_try_except (m : M A) (handler : exn -> M A) :
  all_events ok m -> (forall e, all_events ok (handler e)) ->
  all_events ok (try_except m handler).
Proof.
  unfold all_events, try_except. intros Hm Hh.
  destruct m as [[a|e] t]; simpl in *; [exact Hm|].
  specialize (Hh e). destruct (handler e) as [r t']. simpl in *.
  now rewrite forallb_app, Hm.
Qed.

Lemma all_events_try_except_cls (cls : exn_class -> bool) (m : M A)
                                (handler : exn -> M A) :
  all_events ok m -> (forall e, all_events ok (handler e)) ->
  all_events ok (try_except_cls cls m handler).
Proof.
  unfold all_events, try_except_cls. intros Hm Hh.
  destruct m as [[a|e] t]; simpl in *; [exact Hm|].
  destruct (cls (exn_cls e)); [|exact Hm].
  specialize (Hh e). destruct (handler e) as [r t']. simpl in *.
  now rewrite forallb_app, Hm.
Qed.

Lemma all_events_In (m : M A) (e : event) :
  all_events ok m -> In e (trace_of m) -> ok e = true.
Proof.
  unfold all_events. intros H Hin.
  now apply (proj1 (forallb_forall ok (trace_of m)) H).
Qed.

End Events.

Lemma all_events_weaken {A} (ok ok' : event -> bool) (m : M A) :
  (forall e, ok e = true -> ok' e = true) ->
  all_events ok m -> all_events ok' m.
Proof.
  unfold all_events. intros Himp H.
  apply forallb_forall. intros e Hin. apply Himp.
  now apply (proj1 (forallb_forall ok (trace_of m)) H).
Qed.

(** Solves [all_events] goals over sequences of prints, calls and
    handlers. *)
Ltac events :=
  repeat first
    [ apply all_events_ret
    | apply all_events_emit; reflexivity
    | apply all_events_call; reflexivity
    | apply all_events_bind; [|intros ?]
    | apply all_events_try_except; [|intros ?]
    | apply all_events_try_except_cls; [|intros ?]
    | match goal with
      | |- all_events _ (if ?c then _ else _) => destruct c
      | |- all_events _ (match ?x with _ => _ end) => destruct x
      end ].

(** ** The re-check, continued *)


Lemma listing_biddable_status_biddable (p : Project) :
  listing_biddable p = true -> status_biddable p = true.
Proof.
  unfold listing_biddable, status_biddable. intros H.
  apply orb_true_iff in H as [H|H].
  - now rewrite H.
  - apply andb_true_iff in H as [H _]. rewrite H. apply orb_true_r.
Qed.

(** A project that passed the filter of [find_projects] passes the re-check
    of [submit_bid] when the fetch gives the same record back. *)
Theorem listed_project_passes_recheck (w : World) (pid : Z) (p : Project) :
  listing_biddable p = true ->
  get_project_by_id w pid = Returns (Some p) ->
  result_of (check_project_status w pid) = Returns true.
Proof.
  intros L F. apply listing_biddable_status_biddable in L.
  unfold check_project_status. rewrite F. simpl. now rewrite L.
Qed.

Lemma listed_project_passes_recheck_witness :
  result_of (check_project_status confirming_world 7) = Returns true.
Proof.
  apply (listed_project_passes_recheck confirming_world 7 no_status_project);
    reflexivity.
Defined.

(** ** Submission, continued *)

(** When the re-check passes and the marketplace accepts, [submit_bid] does
    four things in this order: it fetches the project named by the proposal,
    logs its status, asks for the bidder, and places one bid with the fields
    of the proposal; it returns what the marketplace returned and prints
    nothing. *)
Theorem submit_bid_accepted_run (w : World) (proposal : BidProposal)
                                (p : Project) (uid : Z) (r : BidResult) :
  get_project_by_id w (project_id proposal) = Returns (Some p) ->
  status_biddable p = true ->
  get_self_user_id w = Returns uid ->
  place_project_bid w (project_id proposal) uid (bid_amount proposal)
    (period proposal) (proposal_description proposal)
    (milestone_percentage proposal) = Returns r ->
  submit_bid w proposal =
  (Returns (Some r),
   [CallGetProjectById (project_id proposal);
    LogInfo ("Project status: " ++ str_of_opt (status p) ++
             ", frontend status: " ++ str_of_opt (frontend_status p));
    CallGetSelfUserId;
    CallPlaceProjectBid (project_id proposal) uid (bid_amount proposal)
      (period proposal) (proposal_description proposal)
      (milestone_percentage proposal)]).
Proof.
  intros F S U P. unfold submit_bid, check_project_status. cbv zeta.
  rewrite F. simpl. rewrite S. simpl. rewrite U. simpl. now rewrite P.
Qed.

Lemma submit_bid_accepted_run_witness :
  result_of (submit_bid confirming_world sample_proposal)
    = Returns (Some accepted_bid) /\
  filter is_place_bid (trace_of (submit_bid confirming_world sample_proposal))
    = [CallPlaceProjectBid 7 42 150 3 "I can do this audit." 50].
Proof.
  rewrite (submit_bid_accepted_run confirming_world sample_proposal
             no_status_project 42 accepted_bid);
    try reflexivity.
  split; reflexivity.
Defined.

(** When the bidder cannot be identified, [submit_bid] places no bid: the
    error of [get_self_user_id] is logged and printed, and [None] is
    returned. *)
Theorem submit_bid_unknown_bidder (w : World) (proposal : BidProposal)
                                  (e : exn) :
  result_of (check_project_status w (project_id proposal)) = Returns true ->
  get_self_user_id w = Raises e ->
  result_of (submit_bid w proposal) = Returns None /\
  submit_calls (trace_of (submit_bid w proposal)) = 0%nat /\
  logged_errors (trace_of (submit_bid w proposal))
    = ["Error submitting bid: " ++ exn_msg e] /\
  printed (trace_of (submit_bid w proposal))
    = ["Detailed error: " ++ exn_msg e].
Proof.
  intros Hc Hu.
  rewrite (submit_bid_accepted w proposal Hc). rewrite Hu. simpl.
  destruct (check_project_status_quiet w (project_id proposal)) as [Hq Hpr].
  pose proof (check_project_status_true_clean w _ Hc) as Hl.
  rewrite <- !app_assoc.
  rewrite !submit_calls_app, !logged_errors_app, !printed_app, Hq, Hpr, Hl.
  now repeat split.
Qed.

Lemma submit_bid_unknown_bidder_witness :
  result_of (submit_bid anonymous_world sample_proposal) = Returns None /\
  submit_calls (trace_of (submit_bid anonymous_world sample_proposal)) = 0%nat /\
  logged_errors (trace_of (submit_bid anonymous_world sample_proposal))
    = ["Error submitting bid: 401 Unauthorized"] /\
  printed (trace_of (submit_bid anonymous_world sample_proposal))
    = ["Detailed error: 401 Unauthorized"].
Proof.
  apply (submit_bid_unknown_bidder anonymous_world sample_proposal
           (mkExn OtherException "401 Unauthorized")); reflexivity.
Defined.

(** ** The bidding stage of [main] *)

Lemma index_guard_false (b n : Z) :
  1 <= b <= n -> ((b <? 1) || (b >? n))%bool = false.
Proof.
  intros H. apply orb_false_iff. split.
  - apply Z.ltb_ge. lia.
  - rewrite Z.gtb_ltb. apply Z.ltb_ge. lia.
Qed.

Lemma index_guard_true (b n : Z) :
  b < 1 \/ b > n -> ((b <? 1) || (b >? n))%bool = true.
Proof.
  intros H. apply orb_true_iff. destruct H as [H|H].
  - left. now apply Z.ltb_lt.
  - right. rewrite Z.gtb_ltb. apply Z.ltb_lt. lia.
Qed.

Lemma py_index_nth {T} (l : list T) (i : Z) (a : T) :
  0 <= i < Z.of_nat (List.length l) ->
  nth_error l (Z.to_nat i) = Some a ->
  py_index l i = (Returns a, [ListAccess (List.length l) i]).
Proof.
  intros H E. unfold py_index.
  replace (i <? 0) with false by (symmetry; apply Z.ltb_ge; lia).
  replace (0 <=? i) with true by (symmetry; apply Z.leb_le; lia).
  replace (i <? Z.of_nat (List.length l)) with true
    by (symmetry; apply Z.ltb_lt; lia).
  simpl. now rewrite E.
Qed.

Lemma py_index_member {T} (l : list T) (i : Z) (a : T) :
  result_of (py_index l i) = Returns a -> In a l.
Proof.
  unfold py_index.
  destruct (if ((0 <=? (if i <? 0 then i + Z.of_nat (List.length l) else i))
                && ((if i <? 0 then i + Z.of_nat (List.length l) else i)
                    <? Z.of_nat (List.length l)))%bool
            then nth_error l
                   (Z.to_nat (if i <? 0
                              then i + Z.of_nat (List.length l) else i))
            else None) as [x|] eqn:E; simpl; [|discriminate].
  intros R. injection R as <-.
  destruct ((0 <=? _) && _)%bool; [|discriminate].
  now apply nth_error_In in E.
Qed.

Lemma py_index_in_range_events {T} (l : list T) (i : Z) :
  0 <= i < Z.of_nat (List.length l) ->
  all_events (fun e => negb (out_of_range e)) (py_index l i).
Proof.
  intros H. destruct (py_index_in_range l i H) as [a E]. rewrite E.
  unfold all_events. simpl. rewrite negb_involutive, andb_true_r.
  apply andb_true_iff. split; [apply Z.leb_le | apply Z.ltb_lt]; lia.
Qed.

(** After the selection, the stage reads no list and composes nothing
    more. *)
Lemma confirm_and_submit_events (w : World) (proposal : option BidProposal) :
  all_events (fun e => negb (is_list_access e || is_bidder_agent_call e))
             (confirm_and_submit w proposal).
Proof.
  unfold confirm_and_submit, display_bid_proposal, display_bid_result, input,
    submit_bid, check_project_status.
  cbv zeta. events.
Qed.

Lemma generate_bid_proposal_events (w : World) (p : Project) :
  all_events (fun e => negb (is_list_access e || is_input e || is_fetch e
                             || is_place_bid e))
             (generate_bid_proposal w p).
Proof.
  unfold generate_bid_proposal. events.
Qed.

(** Whatever list and index it is given, the bidding stage reads the list
    within its bounds only; with an index below 1 or above the number of
    projects it prints the invalid-index line and does nothing else. *)
Theorem bid_stage_index_safe :
  (forall w projects bid,
     all_events (fun e => negb (out_of_range e))
                (bid_stage w projects bid)) /\
  (forall w projects b,
     b <> 0 -> b < 1 \/ b > Z.of_nat (List.length projects) ->
     bid_stage w projects (Some b) =
     (Returns InvalidIndex,
      [Print ("Invalid project index. Please choose between 1 and " ++
              Py.str_of_Z (Z.of_nat (List.length projects)))])).
Proof.
  split.
  - intros w projects bid. unfold bid_stage.
    destruct (Py.truthy_Z bid); [|reflexivity].
    set (b := match bid with Some n => n | None => 0 end).
    destruct ((b <? 1) || (b >? Z.of_nat (List.length projects)))%bool eqn:G;
      [reflexivity|].
    apply orb_false_iff in G as [G1 G2].
    apply Z.ltb_ge in G1. rewrite Z.gtb_ltb in G2. apply Z.ltb_ge in G2.
    apply all_events_bind; [apply py_index_in_range_events; lia|].
    intros p. apply all_events_bind.
    + apply (all_events_weaken
               (fun e => negb (is_list_access e || is_input e || is_fetch e
                               || is_place_bid e)));
        [|apply generate_bid_proposal_events].
      intros [] H; try reflexivity; discriminate H.
    + intros proposal.
      apply (all_events_weaken
               (fun e => negb (is_list_access e || is_bidder_agent_call e)));
        [|apply confirm_and_submit_events].
      intros [] H; try reflexivity; discriminate H.
  - intros w projects b Hb G. unfold bid_stage. simpl.
    apply Z.eqb_neq in Hb. rewrite Hb. simpl.
    now rewrite (index_guard_true _ _ G).
Qed.

Lemma bid_stage_index_safe_witness :
  bid_stage confirming_world [no_status_project; closed_project] (Some 3) =
  (Returns InvalidIndex,
   [Print "Invalid project index. Please choose between 1 and 2"]).
Proof.
  apply (proj2 bid_stage_index_safe confirming_world
           [no_status_project; closed_project] 3).
  - discriminate.
  - right. simpl. lia.
Defined.

(** Without a credential for the composer, the stage ends after the two
    lines about the missing key: the operator is not asked, no project is
    fetched, nothing is composed and nothing is submitted. *)
Theorem bid_stage_without_credential (w : World) (projects : list Project)
                                     (b : Z) :
  OPENAI_API_KEY w = false ->
  1 <= b <= Z.of_nat (List.length projects) ->
  result_of (bid_stage w projects (Some b)) = Returns NoProposal /\
  all_events (fun e => negb (is_input e || is_fetch e || is_place_bid e
                             || is_bidder_agent_call e))
             (bid_stage w projects (Some b)) /\
  printed (trace_of (bid_stage w projects (Some b))) =
    ["Error: OPENAI_API_KEY environment variable not set.";
     "Please set your OpenAI API key to use the AI bidding feature."].
Proof.
  intros K R. unfold bid_stage. simpl.
  replace (b =? 0) with false by (symmetry; apply Z.eqb_neq; lia).
  simpl. rewrite (index_guard_false _ _ R).
  destruct (py_index_in_range projects (b - 1)) as [p E]; [lia|].
  rewrite E. unfold generate_bid_proposal. rewrite K. simpl.
  now repeat split.
Qed.

Lemma bid_stage_without_credential_witness :
  result_of (bid_stage keyless_world [no_status_project] (Some 1))
    = Returns NoProposal /\
  all_events (fun e => negb (is_input e || is_fetch e || is_place_bid e
                             || is_bidder_agent_call e))
             (bid_stage keyless_world [no_status_project] (Some 1)) /\
  printed (trace_of (bid_stage keyless_world [no_status_project] (Some 1))) =
    ["Error: OPENAI_API_KEY environment variable not set.";
     "Please set your OpenAI API key to use the AI bidding feature."].
Proof.
  apply bid_stage_without_credential; [reflexivity | simpl; lia].
Defined.

(** An error of the composer is not caught by the stage: it leaves [main]
    as it was raised, before the operator is asked and before anything is
    fetched or submitted. *)
Theorem bid_stage_composer_error (w : World) (projects : list Project)
                                 (b : Z) (e : exn) :
  OPENAI_API_KEY w = true ->
  1 <= b <= Z.of_nat (List.length projects) ->
  (forall p, In p projects -> bidder_agent_run w p = Raises e) ->
  result_of (bid_stage w projects (Some b)) = Raises e /\
  all_events (fun e => negb (is_input e || is_fetch e || is_place_bid e))
             (bid_stage w projects (Some b)).
Proof.
  intros K R C. unfold bid_stage. simpl.
  replace (b =? 0) with false by (symmetry; apply Z.eqb_neq; lia).
  simpl. rewrite (index_guard_false _ _ R).
  destruct (py_index_in_range projects (b - 1)) as [p E]; [lia|].
  assert (Hin : In p projects).
  { apply (py_index_member projects (b - 1)). now rewrite E. }
  rewrite E. unfold generate_bid_proposal. rewrite K. simpl.
  rewrite (C p Hin). simpl. now split.
Qed.

Lemma bid_stage_composer_error_witness :
  result_of (bid_stage failing_composer_world [no_status_project] (Some 1))
    = Raises (mkExn OtherException "model overloaded") /\
  all_events (fun e => negb (is_input e || is_fetch e || is_place_bid e))
             (bid_stage failing_composer_world [no_status_project] (Some 1)).
Proof.
  apply bid_stage_composer_error;
    [reflexivity | simpl; lia | intros p _; reflexivity].
Defined.



Lemma py_index_trace {T} (l : list T) (i : Z) :
  trace_of (py_index l i) = [ListAccess (List.length l) i].
Proof.
  unfold py_index.
  now destruct (if ((0 <=? (if i <? 0 then i + Z.of_nat (List.length l) else i))
                    && ((if i <? 0 then i + Z.of_nat (List.length l) else i)
                        <? Z.of_nat (List.length l)))%bool
                then nth_error l
                       (Z.to_nat (if i <? 0
                                  then i + Z.of_nat (List.length l) else i))
                else None).
Qed.

Lemma bid_stage_composes_for_member (w : World) (projects : list Project)
                                    (bid : option Z) (p : Project) :
  In (CallBidderAgent p) (trace_of (bid_stage w projects bid)) ->
  In p projects.
Proof.
  unfold bid_stage.
  destruct (Py.truthy_Z bid); [|intros []].
  destruct ((_ <? 1) || (_ >? _))%bool; [intros [H|[]]; discriminate H|].
  set (i := match bid with Some n => n | None => 0 end - 1).
  destruct (result_of (py_index projects i)) as [a|e] eqn:R.
  - pose proof (py_index_member projects i a R) as Ha.
    rewrite (bind_returns _ _ a R). simpl. intros H.
    apply in_app_or in H as [H|H].
    + rewrite py_index_trace in H. destruct H as [H|[]]; discriminate H.
    + destruct (result_of (generate_bid_proposal w a)) as [pr|e] eqn:G.
      * rewrite (bind_returns _ _ pr G) in H. simpl in H.
        apply in_app_or in H as [H|H].
        -- unfold generate_bid_proposal in H.
           destruct (OPENAI_API_KEY w); simpl in H.
           ++ destruct (bidder_agent_run w a); simpl in H;
                destruct H as [H|[H|[]]]; try discriminate H;
                injection H as <-; exact Ha.
           ++ destruct H as [H|[H|[]]]; discriminate H.
        -- pose proof (all_events_In _ _ _
                         (confirm_and_submit_events w pr) H) as Hok.
           discriminate Hok.
      * rewrite (bind_raises _ _ e G) in H. simpl in H.
        unfold generate_bid_proposal in H.
        destruct (OPENAI_API_KEY w); simpl in H.
        -- destruct (bidder_agent_run w a); simpl in H;
             destruct H as [H|[H|[]]]; try discriminate H;
             injection H as <-; exact Ha.
        -- destruct H as [H|[H|[]]]; discriminate H.
  - rewrite (bind_raises _ _ e R). simpl. intros H.
    rewrite py_index_trace in H. destruct H as [H|[]]; discriminate H.
Qed.

(** [main] hands the list that the filter of [find_projects] kept to the
    bidding stage, so a proposal is only ever composed for a project of the
    search result that passed the filter. *)
Theorem only_listed_projects_composed (w : World) (found : list Project)
                                      (bid : option Z) (p : Project) :
  In (CallBidderAgent p)
     (trace_of (bid_stage w (biddable_projects found) bid)) ->
  In p found /\ listing_biddable p = true.
Proof.
  intros H. apply bid_stage_composes_for_member in H.
  unfold biddable_projects in H. now apply filter_In in H.
Qed.

Lemma only_listed_projects_composed_witness :
  In no_status_project [closed_project; no_status_project] /\
  listing_biddable no_status_project = true.
Proof.
  apply (only_listed_projects_composed confirming_world
           [closed_project; no_status_project] (Some 1) no_status_project).
  vm_compute. tauto.
Defined.

(** ** [place_bid], continued *)

(** After "CONFIRM", [place_bid] places one bid of 100 for 7 days with the
    canned text and a milestone of 100 percent, in the name of the user
    [get_self_user_id] gives, and returns the bid. *)
Theorem place_bid_confirmed (w : World) (pid uid : Z) (bid : BidResult) :
  operator_input w = "CONFIRM" ->
  get_self_user_id w = Returns uid ->
  place_project_bid w pid uid BID_AMOUNT BID_PERIOD BID_DESCRIPTION 100
    = Returns bid ->
  result_of (place_bid w pid) = Returns (Some bid) /\
  filter is_place_bid (trace_of (place_bid w pid))
    = [CallPlaceProjectBid pid uid 100 7 BID_DESCRIPTION 100] /\
  In "Bid placed successfully!" (printed (trace_of (place_bid w pid))).
Proof.
  intros C U P. unfold place_bid, input, call. simpl.
  rewrite C. simpl. rewrite U. simpl. rewrite P. simpl.
  repeat split. tauto.
Qed.

Lemma place_bid_confirmed_witness :
  let w := world_with no_status_project (Returns accepted_bid) "CONFIRM" in
  result_of (place_bid w 7) = Returns (Some accepted_bid) /\
  filter is_place_bid (trace_of (place_bid w 7))
    = [CallPlaceProjectBid 7 42 100 7 BID_DESCRIPTION 100] /\
  In "Bid placed successfully!" (printed (trace_of (place_bid w 7))).
Proof.
  apply place_bid_confirmed; reflexivity.
Defined.

(** [place_bid] handles [BidNotPlacedException] only.  A refusal of the bid
    with that exception is printed and gives [None], after the one attempt;
    any other exception of the marketplace call, and any exception of
    [get_self_user_id] that is not of that class, leaves [place_bid] as it
    was raised. *)
Theorem place_bid_errors :
  (forall w pid uid e,
     operator_input w = "CONFIRM" ->
     get_self_user_id w = Returns uid ->
     place_project_bid w pid uid BID_AMOUNT BID_PERIOD BID_DESCRIPTION 100
       = Raises e ->
     submit_calls (trace_of (place_bid w pid)) = 1%nat /\
     (exn_cls e = BidNotPlacedException ->
      result_of (place_bid w pid) = Returns None /\
      In ("Error placing bid: " ++ exn_msg e)
         (printed (trace_of (place_bid w pid)))) /\
     (exn_cls e <> BidNotPlacedException ->
      result_of (place_bid w pid) = Raises e)) /\
  (forall w pid e,
     operator_input w = "CONFIRM" ->
     get_self_user_id w = Raises e ->
     exn_cls e <> BidNotPlacedException ->
     result_of (place_bid w pid) = Raises e /\
     submit_calls (trace_of (place_bid w pid)) = 0%nat).
Proof.
  split.
  - intros w pid uid e C U P. unfold place_bid, input, call. simpl.
    rewrite C. simpl. rewrite U. simpl. rewrite P. simpl.
    destruct e as [cls msg]. simpl.
    destruct cls; simpl; (split; [reflexivity|]); split;
      try (intros H; discriminate H);
      try (intros H; now destruct H);
      try (intros _; reflexivity).
    intros _. split; [reflexivity|]. simpl. tauto.
  - intros w pid e C U N. unfold place_bid, input, call. simpl.
    rewrite C. simpl. rewrite U. simpl.
    destruct e as [cls msg]. simpl in *.
    destruct cls; simpl; try (now destruct N); now split.
Qed.

Lemma place_bid_errors_witness :
  result_of (place_bid anonymous_world 7)
    = Raises (mkExn OtherException "401 Unauthorized") /\
  submit_calls (trace_of (place_bid anonymous_world 7)) = 0%nat.
Proof.
  apply (proj2 place_bid_errors anonymous_world 7
           (mkExn OtherException "401 Unauthorized"));
    [reflexivity | reflexivity | discriminate].
Defined.

(** ** [get_project_details], continued *)

(** With an index within the list, the tool reads the project at that
    position.  When the project has no identifier (or the identifier 0) it
    is returned as it is and nothing is fetched; otherwise the project is
    fetched once by its identifier, and the tool returns what the fetch
    gave, or an error dictionary with the message of the error when the
    fetch raised. *)
Theorem get_project_details_in_range (w : World) (projects : list Project)
                                     (i : Z) (p : Project) :
  1 <= i <= Z.of_nat (List.length projects) ->
  nth_error projects (Z.to_nat (i - 1)) = Some p ->
  (Py.truthy_Z (id p) = false ->
   get_project_details w projects i =
   (Returns (ProjectDict (Some p)),
    [ListAccess (List.length projects) (i - 1)])) /\
  (forall n, id p = Some n -> n <> 0 ->
   trace_of (get_project_details w projects i) =
     [ListAccess (List.length projects) (i - 1); CallGetProjectById n] /\
   result_of (get_project_details w projects i) =
     match get_project_by_id w n with
     | Returns detailed => Returns (ProjectDict detailed)
     | Raises e =>
         Returns (ErrorDict ("Error fetching project details: " ++ exn_msg e))
     end).
Proof.
  intros R N. unfold get_project_details.
  destruct projects as [|q rest]; [simpl in R; lia|].
  remember (q :: rest) as l eqn:L. clear L.
  rewrite (index_guard_false _ _ R).
  rewrite (py_index_nth l (i - 1) p); [|lia|exact N].
  split.
  - intros T. simpl. now rewrite T.
  - intros n E Hn. simpl. rewrite E. simpl.
    apply Z.eqb_neq in Hn. rewrite Hn. simpl.
    now destruct (get_project_by_id w n).
Qed.

Lemma get_project_details_in_range_witness :
  trace_of (get_project_details confirming_world
              [closed_project; no_status_project] 2) =
    [ListAccess 2 1; CallGetProjectById 7] /\
  result_of (get_project_details confirming_world
               [closed_project; no_status_project] 2) =
    Returns (ProjectDict (Some no_status_project)).
Proof.
  apply (proj2 (get_project_details_in_range confirming_world
                  [closed_project; no_status_project] 2 no_status_project
                  ltac:(simpl; lia) eq_refl) 7);
    [reflexivity | discriminate].
Defined.

(** ** [analyze_projects_with_ai] *)

(** [analyze_projects_with_ai] reads the list within its bounds only.
    Without projects, without a credential, or asked for one project with
    no index or an index below 1 or above the number of projects, it
    returns [None] without reading the list, whatever the agent would have
    answered. *)
Theorem analyze_projects_guards {A : Type} :
  (forall w (agent_run : outcome A) projects analyze_all project_index,
     all_events (fun e => negb (out_of_range e))
                (analyze_projects_with_ai w agent_run projects analyze_all
                                          project_index)) /\
  (forall w (agent_run : outcome A) projects analyze_all project_index,
     projects = [] \/ OPENAI_API_KEY w = false \/
     (analyze_all = false /\
      (project_index = None \/
       exists i, project_index = Some i /\
                 (i < 1 \/ i > Z.of_nat (List.length projects)))) ->
     result_of (analyze_projects_with_ai w agent_run projects analyze_all
                                         project_index) = Returns None /\
     filter is_list_access
       (trace_of (analyze_projects_with_ai w agent_run projects analyze_all
                                           project_index)) = [] /\
     forall agent_run' : outcome A,
       analyze_projects_with_ai w agent_run' projects analyze_all
                                project_index
       = analyze_projects_with_ai w agent_run projects analyze_all
                                  project_index).
Proof.
  split.
  - intros w agent_run projects analyze_all project_index.
    unfold analyze_projects_with_ai.
    destruct projects as [|q rest]; [reflexivity|].
    remember (q :: rest) as l eqn:L. clear L.
    destruct (negb (OPENAI_API_KEY w)); [reflexivity|].
    destruct analyze_all; [destruct agent_run; reflexivity|].
    destruct project_index as [i|]; [|reflexivity].
    destruct ((i <? 1) || (i >? Z.of_nat (List.length l)))%bool eqn:G;
      [reflexivity|].
    apply orb_false_iff in G as [G1 G2].
    apply Z.ltb_ge in G1. rewrite Z.gtb_ltb in G2. apply Z.ltb_ge in G2.
    apply all_events_bind; [apply py_index_in_range_events; lia|].
    intros _. destruct agent_run; reflexivity.
  - intros w agent_run projects analyze_all project_index H.
    unfold analyze_projects_with_ai.
    destruct projects as [|q rest]; [now repeat split|].
    remember (q :: rest) as l eqn:L.
    destruct H as [H|[H|H]]; [subst l; discriminate H| |].
    + rewrite H. now repeat split.
    + destruct (negb (OPENAI_API_KEY w)); [now repeat split|].
      destruct H as [-> H]. destruct H as [->|(i & -> & H)];
        [now repeat split|].
      rewrite (index_guard_true _ _ H). now repeat split.
Qed.

Lemma analyze_projects_guards_witness :
  result_of (analyze_projects_with_ai confirming_world (Returns tt)
               [no_status_project] false (Some 2)) = Returns None /\
  filter is_list_access
    (trace_of (analyze_projects_with_ai confirming_world (Returns tt)
                 [no_status_project] false (Some 2))) = [] /\
  forall agent_run' : outcome unit,
    analyze_projects_with_ai confirming_world agent_run'
      [no_status_project] false (Some 2)
    = analyze_projects_with_ai confirming_world (Returns tt)
        [no_status_project] false (Some 2).
Proof.
  apply (proj2 analyze_projects_guards).
  right. right. split; [reflexivity|]. right. exists 2.
  split; [reflexivity|]. right. simpl. lia.
Defined.

(** ** Confirmation, continued *)



(** ** Bid amount, continued *)





(** The history counts through its non-zero amounts only: entries without
    an amount or with the amount zero, and the difference between no history
    and an empty one, change nothing. *)
Theorem typical_bid_amount_history (deps deps' : BidderAgentDeps) :
  project deps = project deps' ->
  typical_bid_amount deps = typical_bid_amount deps' ->
  nonzero_amounts (history_entries deps)
    = nonzero_amounts (history_entries deps') ->
  get_typical_bid_amount deps = get_typical_bid_amount deps'.
Proof.
  intros P O H.
  destruct (Py.truthy_Q (typical_bid_amount deps)) eqn:T.
  - unfold get_typical_bid_amount. rewrite <- O, T. reflexivity.
  - rewrite (typical_amount_unfold deps T).
    rewrite O in T. rewrite (typical_amount_unfold deps' T).
    cbv zeta. now rewrite P, H.
Qed.

Lemma typical_bid_amount_history_witness :
  get_typical_bid_amount
    (mkBidderAgentDeps budget_100_200
       (Some [mkHistoryBid None; mkHistoryBid (Some 120%Q);
              mkHistoryBid (Some 0%Q); mkHistoryBid (Some 130%Q)]) None)
  = get_typical_bid_amount
      (mkBidderAgentDeps budget_100_200 (Some history_120_130) None).
Proof.
  apply typical_bid_amount_history; reflexivity.
Defined.
